(** * australian-census-data: normalisation and artifact addressing

    A shallow embedding of [package/support.py] and the properties of its
    normalisation pipeline ([process_data]), its figure builder
    ([create_figure]), its figure store ([save_figure], [read_figure]) and
    its loaders ([load_raw], [load_local_data], [load_cloud_data],
    [load_pro]).

    The code is glue around pandas/geopandas/plotly. What those libraries do
    is written out here as far as the code relies on it:
    - a dataframe is an index plus an ordered list of labelled columns;
    - [gdf['geometry'] != None] is the elementwise comparison of a
      geometry array (a missing geometry is [None]); the geometry column of
      a frame is such an array;
    - [astype] casts cell by cell: text with Python's [str], numbers as
      the storage of the cell has it;
    - the file system is a finite map from path texts to documents: two
      texts that name one file on disk are two keys.
    Floating point numbers and [int] on text beyond ASCII or very
    long stay abstract (class [PyFloat]). *)

From Stdlib Require Import ZArith String Ascii List DecimalString Sorted Lia.
From Stdlib Require Import DecimalPos DecimalZ.
From stdpp Require Import base option list strings gmap fin_maps.
Import ListNotations.

#[local] Open Scope string_scope.
#[local] Open Scope Z_scope.
#[local] Set Warnings "-clear-no-such-hyp".

(** ** Python exceptions and results *)

Inductive exn : Type :=
  | KeyError (missing : list string)
      (* the labels or keys that were not found *)
  | ValueError (column : option string)
      (* [DataFrame.astype] appends the column being cast to the message *)
  | TypeError
  | OverflowError
  | NameError (name : string)
  | FileNotFoundError (path : string)
  | OSError (path : string).

Inductive result (A : Type) : Type :=
  | Ok (a : A)
  | Raise (e : exn).
Arguments Ok {A} a.
Arguments Raise {A} e.

#[global] Instance result_ret : MRet result := λ A a, Ok a.
#[global] Instance result_bind : MBind result := λ A B f m,
  match m with
  | Ok a => f a
  | Raise e => Raise e
  end.

Definition is_Ok {A} (r : result A) : Prop := ∃ a, r = Ok a.
Definition is_Raise {A} (r : result A) : Prop := ∃ e, r = Raise e.

(** [for x in l: f x] with the first exception ending the loop. *)
Fixpoint mapM_result {A B} (f : A → result B) (l : list A) : result (list B) :=
  match l with
  | [] => Ok []
  | x :: l' =>
      y ← f x;
      ys ← mapM_result f l';
      Ok (y :: ys)
  end.

(** ** Python scalars *)

(** [str(n)] for an integer, also what an f-string prints for it. *)
Definition str_of_int (z : Z) : string := NilZero.string_of_int (Z.to_int z).

(** An f-string: literal text and formatted fields, left to right. *)
Inductive fpart : Type :=
  | Lit (s : string)
  | FStr (s : string)     (* [{x}] for text [x] *)
  | FInt (z : Z).         (* [{n}] for an integer [n] *)

Definition format (p : fpart) : string :=
  match p with
  | Lit s => s
  | FStr s => s
  | FInt z => str_of_int z
  end.

Definition fstring (parts : list fpart) : string :=
  foldr (λ p acc, format p +:+ acc) "" parts.

Module IntLiteral.
(** [int(s)] on ASCII text, base 10: surrounding white space (tab, line
    feed, vertical tab, form feed, carriage return, space) is stripped, one
    sign is allowed, digits may be grouped by single underscores. Text with
    a character beyond ASCII, and text long enough for the interpreter's
    limit on digits to apply, is not read here (see [int_of_text]). *)

Definition is_space (c : ascii) : bool :=
  let n := nat_of_ascii c in
  ((9 <=? n)%nat && (n <=? 13)%nat) || (n =? 32)%nat.

Definition is_ascii (s : string) : bool :=
  forallb (λ c, (nat_of_ascii c <? 128)%nat) (list_ascii_of_string s).

Definition digit (c : ascii) : option Z :=
  let n := nat_of_ascii c in
  if ((48 <=? n)%nat && (n <=? 57)%nat)%bool
  then Some (Z.of_nat n - 48) else None.

Fixpoint lstrip (cs : list ascii) : list ascii :=
  match cs with
  | c :: cs' => if is_space c then lstrip cs' else cs
  | [] => []
  end.

Definition strip (cs : list ascii) : list ascii :=
  rev (lstrip (rev (lstrip cs))).

(** The digits after a first digit has been read. *)
Fixpoint digits (acc : Z) (cs : list ascii) : option Z :=
  match cs with
  | [] => Some acc
  | c :: cs' =>
      match digit c with
      | Some d => digits (10 * acc + d) cs'
      | None =>
          if Ascii.eqb c "_" then
            match cs' with
            | c' :: cs'' =>
                match digit c' with
                | Some d => digits (10 * acc + d) cs''
                | None => None
                end
            | [] => None
            end
          else None
      end
  end.

Definition unsigned (cs : list ascii) : option Z :=
  match cs with
  | c :: cs' =>
      match digit c with
      | Some d => digits d cs'
      | None => None
      end
  | [] => None
  end.

Definition parse (s : string) : option Z :=
  match strip (list_ascii_of_string s) with
  | c :: cs' =>
      if Ascii.eqb c "-" then Z.opp <$> unsigned cs'
      else if Ascii.eqb c "+" then unsigned cs'
      else unsigned (c :: cs')
  | [] => None
  end.
End IntLiteral.

(** ** Python dictionaries with text keys, in insertion order *)

Fixpoint dict_set {V} (k : string) (v : V) (d : list (string * V)) : list (string * V) :=
  match d with
  | [] => [(k, v)]
  | (k', v') :: d' =>
      if String.eqb k' k then (k', v) :: d' else (k', v') :: dict_set k v d'
  end.

Fixpoint dict_get {V} (d : list (string * V)) (k : string) : option V :=
  match d with
  | [] => None
  | (k', v') :: d' => if String.eqb k' k then Some v' else dict_get d' k
  end.

(** [{key(x): val(x) for x in items}]: a later item replaces the value of
    an equal earlier key. *)
Definition dict_of_items {V} (items : list (string * V)) : list (string * V) :=
  fold_left (λ d kv, dict_set kv.1 kv.2 d) items [].

(** What the cast of a floating point cell to [int64] does. *)
Inductive int_cast : Type :=
  | IntCast (z : Z)            (* the cast gives this integer *)
  | IntCastValueError          (* nan anywhere, inf in a float column *)
  | IntCastOverflowError.      (* a Python float beyond 64 bits, inf included *)

(** What is not modelled is a method of this interface: floating point
    numbers, and [int] on text beyond ASCII or of more than 640 characters
    (the interpreter refuses a number of more digits than a limit that can
    be set, to no less than 640). A [float] stands for a
    floating point cell as it is stored, a Python float of an object column
    or a cell of a float column: the two are cast to integers differently
    (out of range, the first raises and the second wraps), so the outcome
    of the cast is a method too. *)
Class PyFloat : Type := {
  float : Type;
  float_nan : float;
  float_of_str : string → option float;   (* float(s), ValueError on None *)
  float_of_int : Z → option float;        (* float(n), OverflowError on None *)
  str_of_float : float → string;          (* str(x) *)
  float_to_int : float → int_cast;        (* the cast of the cell to int64 *)
  float_to_int_range :                    (* what it stores has 64 bits *)
    ∀ x z, float_to_int x = IntCast z → - 2 ^ 63 ≤ z < 2 ^ 63;
  int_of_other_text : string → option Z   (* int(s), ValueError on None *)
}.

(** An opaque geometry, named by its well-known text. *)
Record Geom : Type := { wkt : string }.

Section Values.
Context `{PyFloat}.

(** The cells of a dataframe. [VInt] is a Python integer of an object
    column or a cell of a signed or narrower integer column; [VUInt64] is a
    cell of an unsigned 64-bit column. *)
Inductive value : Type :=
  | VNone
  | VStr (s : string)
  | VInt (z : Z)
  | VFloat (x : float)
  | VGeom (g : Geom)
  | VUInt64 (n : Z).

(** [x != None] *)
Definition ne_None (v : value) : bool :=
  match v with
  | VNone => false
  | _ => true
  end.

(** The type names of a column spec's ['type'] entry. *)
Inductive dtype : Type := Str | Int | Float | Geometry.

(** Python's [str(x)]. As the cast to text of a missing value this is the
    behaviour of pandas 1 and 2. *)
Definition py_str (v : value) : string :=
  match v with
  | VNone => "None"
  | VStr s => s
  | VInt z => str_of_int z
  | VFloat x => str_of_float x
  | VGeom g => wkt g
  | VUInt64 n => str_of_int n
  end.

(** [int(s)] on text. *)
Definition int_of_text (s : string) : option Z :=
  if (IntLiteral.is_ascii s && (String.length s <=? 640)%nat)%bool
  then IntLiteral.parse s
  else int_of_other_text s.

(** Storing a Python integer, one of an object column or one read from
    text, in an [int64] array: too large a number raises. *)
Definition to_int64 (z : Z) : result Z :=
  if ((- 2 ^ 63 <=? z) && (z <? 2 ^ 63))%bool then Ok z else Raise OverflowError.

(** Reading 64 unsigned bits as signed ones: the cast of an unsigned
    column wraps. *)
Definition wrap_int64 (n : Z) : Z := (n + 2 ^ 63) mod 2 ^ 64 - 2 ^ 63.

(** The integer a cell becomes in the cast to [int64]. *)
Definition int64_cell (v : value) : result Z :=
  match v with
  | VNone => Raise TypeError
  | VStr s =>
      match int_of_text s with
      | Some z => to_int64 z
      | None => Raise (ValueError None)
      end
  | VInt z => to_int64 z
  | VFloat x =>
      match float_to_int x with
      | IntCast z => Ok z
      | IntCastValueError => Raise (ValueError None)
      | IntCastOverflowError => Raise OverflowError
      end
  | VGeom _ => Raise TypeError
  | VUInt64 n => Ok (wrap_int64 n)
  end.

(** Casting an object array to [float64] turns [None] into [nan]. *)
Definition py_float (v : value) : result float :=
  match v with
  | VNone => Ok float_nan
  | VStr s =>
      match float_of_str s with
      | Some x => Ok x
      | None => Raise (ValueError None)
      end
  | VInt z =>
      match float_of_int z with
      | Some x => Ok x
      | None => Raise OverflowError
      end
  | VFloat x => Ok x
  | VGeom _ => Raise TypeError
  | VUInt64 n =>
      match float_of_int n with
      | Some x => Ok x
      | None => Raise OverflowError
      end
  end.

(** One cell of [Series.astype(t)]. The cast to geometry is the one of a
    geometry column, whose cells are geometries and [None]; a number or a
    text is refused. *)
Definition astype_cell (t : dtype) (v : value) : result value :=
  match t with
  | Str => Ok (VStr (py_str v))
  | Int => z ← int64_cell v; Ok (VInt z)
  | Float => x ← py_float v; Ok (VFloat x)
  | Geometry =>
      match v with
      | VGeom g => Ok (VGeom g)
      | VNone => Ok VNone
      | _ => Raise TypeError
      end
  end.

(** What a cell of a column of type [t] looks like. *)
Definition has_dtype (t : dtype) (v : value) : Prop :=
  match t with
  | Str => ∃ s, v = VStr s
  | Int => ∃ z, v = VInt z ∧ - 2 ^ 63 ≤ z < 2 ^ 63
  | Float => ∃ x, v = VFloat x
  | Geometry => v = VNone ∨ ∃ g, v = VGeom g
  end.

(** ** Dataframes *)

Record DataFrame : Type := {
  index : list value;                      (* row labels *)
  columns : list (string * list value)     (* label and cells, in order *)
}.

Definition labels (df : DataFrame) : list string := (columns df).*1.

Definition has_column (df : DataFrame) (label : string) : bool :=
  existsb (String.eqb label) (labels df).

(** Frames as the vector-file reader builds them: labels are distinct and
    every column has one cell per row. *)
Definition wf (df : DataFrame) : Prop :=
  NoDup (labels df) ∧ Forall (λ c, length c.2 = length (index df)) (columns df).

#[global] Instance wf_dec (df : DataFrame) : Decision (wf df).
Proof. unfold wf. apply _. Defined.

(** [df[label]], the column of that label. *)
Definition getitem (df : DataFrame) (label : string) : result (list value) :=
  match dict_get (columns df) label with
  | Some cells => Ok cells
  | None => Raise (KeyError [label])
  end.

(** Keeping the positions where the mask is [True]. *)
Fixpoint filter_mask {A} (mask : list bool) (l : list A) : list A :=
  match mask, l with
  | b :: mask', x :: l' =>
      if b then x :: filter_mask mask' l' else filter_mask mask' l'
  | _, _ => []
  end.

(** [df[mask]] for a boolean column [mask] aligned with the rows. *)
Definition getitem_mask (df : DataFrame) (mask : list bool) : DataFrame :=
  {| index := filter_mask mask (index df);
     columns := (λ c, (c.1, filter_mask mask c.2)) <$> columns df |}.

(** The row labels [0 .. n-1]. *)
Definition range_index (n : nat) : list value :=
  (λ i, VInt (Z.of_nat i)) <$> seq 0 n.

(** [df.reset_index(drop=True)] *)
Definition reset_index (df : DataFrame) : DataFrame :=
  {| index := range_index (length (index df));
     columns := columns df |}.

(** [df[names]] for a list of labels: every column carrying a requested
    label, in the order requested; a label requested twice yields its
    column twice. *)
Definition getitem_list (df : DataFrame) (names : list string) : result DataFrame :=
  match List.filter (λ n, negb (has_column df n)) names with
  | [] =>
      Ok {| index := index df;
            columns := flat_map (λ n, List.filter (λ c, String.eqb c.1 n) (columns df)) names |}
  | missing => Raise (KeyError missing)
  end.

(** [df.rename(columns=mapping)] *)
Definition rename_label (mapping : list (string * string)) (label : string) : string :=
  default label (dict_get mapping label).

Definition rename_columns (df : DataFrame) (mapping : list (string * string)) : DataFrame :=
  {| index := index df;
     columns := (λ c, (rename_label mapping c.1, c.2)) <$> columns df |}.

(** Casting one column; a [ValueError] is re-raised with the column's
    label. *)
Definition astype_column (t : dtype) (label : string) (cells : list value)
  : result (list value) :=
  match mapM_result (astype_cell t) cells with
  | Ok cells' => Ok cells'
  | Raise (ValueError _) => Raise (ValueError (Some label))
  | Raise e => Raise e
  end.

(** [df.astype(types)] for a dictionary of types: every key must be a
    column label; every column whose label is a key is cast. *)
Definition astype (df : DataFrame) (types : list (string * dtype)) : result DataFrame :=
  match List.filter (λ k, negb (has_column df k)) types.*1 with
  | k :: _ => Raise (KeyError [k])
  | [] =>
      cols ← mapM_result
               (λ c, match dict_get types c.1 with
                     | Some t => cells ← astype_column t c.1 c.2; Ok (c.1, cells)
                     | None => Ok c
                     end)
               (columns df);
      Ok {| index := index df; columns := cols |}
  end.

(** ** [process_data] *)

Record ColumnSpec : Type := {
  name : string;
  rename : string;
  type : dtype
}.

Definition process_data (gdf : DataFrame) (gdf_column : ColumnSpec)
    (data_year : Z) (gda_type : string) : result DataFrame :=
  (* Create columns *)
  let gdf_columns :=
    [ {| name := fstring [FStr gda_type; Lit "_NAME_"; FInt data_year];
         rename := "Location";
         type := Str |};
      gdf_column;
      {| name := "geometry";
         rename := "geometry";
         type := Geometry |} ] in
  (* Filter data and columns *)
  geometry ← getitem gdf "geometry";
  let gdf := getitem_mask gdf (ne_None <$> geometry) in
  let gdf := reset_index gdf in
  let columns := name <$> gdf_columns in
  gdf ← getitem_list gdf columns;
  (* Update names and types *)
  let column_names := dict_of_items ((λ x, (name x, rename x)) <$> gdf_columns) in
  let gdf := rename_columns gdf column_names in
  let column_types := dict_of_items ((λ x, (rename x, type x)) <$> gdf_columns) in
  astype gdf column_types.

(** *** Vocabulary for the statements about [process_data] *)

(** The label under which [process_data] looks for the boundary names. *)
Definition boundary_name_column (data_year : Z) (gda_type : string) : string :=
  fstring [FStr gda_type; Lit "_NAME_"; FInt data_year].

(** The source positions a mask keeps, in increasing order, counted from
    [i]. *)
Fixpoint survivors_from (i : nat) (mask : list bool) : list nat :=
  match mask with
  | [] => []
  | b :: mask' =>
      if b then i :: survivors_from (S i) mask' else survivors_from (S i) mask'
  end.

(** The rows that have a geometry. *)
Definition survivors (geometry : list value) : list nat :=
  survivors_from 0 (ne_None <$> geometry).


(** A cell of the output is the cell of the source, as it was or cast. *)
Definition cell_of (v v' : value) : Prop :=
  v' = v ∨ ∃ t, astype_cell t v = Ok v'.
End Values.


(** ** The figure store: [save_figure] and [read_figure] *)

Section FigureStore.
(** A plotly figure; the store never looks inside. *)
Context {Figure : Type}.

(** What a file holds: [write_json] and [write_html] each produce their
    own kind of document from a figure. *)
Inductive document : Type :=
  | JsonDoc (figure : Figure)
  | HtmlDoc (figure : Figure).

(** Whether the operating system lets a file be created or replaced at a
    path (its directory exists and can be written). *)
Variable writable : string → bool.

Definition write_json (fs : gmap string document) (figure : Figure) (path : string)
  : result (gmap string document) :=
  if writable path then Ok (<[path := JsonDoc figure]> fs) else Raise (OSError path).

Definition write_html (fs : gmap string document) (figure : Figure) (path : string)
  : result (gmap string document) :=
  if writable path then Ok (<[path := HtmlDoc figure]> fs) else Raise (OSError path).

Definition read_json (fs : gmap string document) (path : string) : result Figure :=
  match fs !! path with
  | Some (JsonDoc figure) => Ok figure
  | Some (HtmlDoc _) => Raise (ValueError None)      (* not a JSON document *)
  | None => Raise (FileNotFoundError path)
  end.

Definition read_figure (fs : gmap string document) (work_dir : string)
    (data_year : Z) (data_topic geo_area gda_spec gda_type : string) : result Figure :=
  (* Set file name *)
  let filename :=
    fstring [FStr data_topic; Lit "_"; FStr gda_type; Lit "_"; FInt data_year;
             Lit "_"; FStr geo_area; Lit "_"; FStr gda_spec] in
  (* Load figure *)
  read_json fs (fstring [FStr work_dir; Lit "/figure/"; FStr filename; Lit ".json"]).

(** The function returns [None]; the result here is the file system it
    leaves behind. *)
Definition save_figure (fs : gmap string document) (work_dir : string)
    (figure : Figure) (file_type : string)
    (data_year : Z) (data_topic geo_area gda_spec gda_type : string)
  : result (gmap string document) :=
  (* Set file name *)
  let filename :=
    fstring [FStr data_topic; Lit "_"; FStr gda_type; Lit "_"; FInt data_year;
             Lit "_"; FStr geo_area; Lit "_"; FStr gda_spec] in
  (* Write figure *)
  if String.eqb file_type "html" then
    write_html fs figure
      (fstring [FStr work_dir; Lit "/figure/"; FStr filename; Lit ".html"])
  else if String.eqb file_type "json" then
    write_json fs figure
      (fstring [FStr work_dir; Lit "/figure/"; FStr filename; Lit ".json"])
  else Ok fs.
End FigureStore.

(** ** [load_local_data] *)

Section Loader.
Context `{PyFloat}.

(** [gpd.read_file(filename=..., layer=...)], the vector-file reader. *)
Variable read_file : string → string → result DataFrame.

Definition load_local_data (work_dir : string)
    (data_year : Z) (data_topic geo_area gda_spec gda_type : string)
  : result DataFrame :=
  (* Set filename and layer *)
  let folder :=
    fstring [Lit "Geopackage_"; FInt data_year; Lit "_"; FStr data_topic;
             Lit "_"; FStr geo_area; Lit "_"; FStr gda_spec] in
  let file :=
    fstring [FStr data_topic; Lit "_"; FStr geo_area; Lit "_"; FStr gda_spec;
             Lit ".gpkg"] in
  let filename :=
    fstring [FStr work_dir; Lit "/raw/"; FStr folder; Lit "/"; FStr file] in
  let layer :=
    fstring [FStr data_topic; Lit "_"; FStr gda_type; Lit "_"; FInt data_year;
             Lit "_"; FStr geo_area] in
  (* Load data *)
  read_file filename layer.
End Loader.

(** ** [load_pro] *)

Section LoadPro.
Context `{PyFloat}.

(** The objects a name of the module can be bound to. *)
Inductive object : Type :=
  | OStr (s : string)
  | OBool (b : bool)
  | ODict (d : gmap string fpart)
  | OFrame (df : DataFrame)
  | OModuleLevel (name : string).   (* an imported module or class, a function *)

(** The names bound at module level: the four imports and the eight
    functions. *)
Definition module_globals : list (string * object) :=
  (λ n, (n, OModuleLevel n)) <$>
    [ "BlobServiceClient"; "gpd"; "go"; "pio";
      "load_raw"; "load_pro"; "process_data"; "create_figure";
      "read_figure"; "save_figure"; "load_local_data"; "load_cloud_data" ].

(** Reading a name inside a function: its own variables first, then the
    module's. *)
Definition load_name (locals globals : list (string * object)) (name : string)
  : result object :=
  match dict_get locals name with
  | Some o => Ok o
  | None =>
      match dict_get globals name with
      | Some o => Ok o
      | None => Raise (NameError name)
      end
  end.

(** The body is the single statement [return gdf]; the parameters are the
    only variables of the function. *)
Definition load_pro (work_dir : string) (data_config : gmap string fpart)
    (cloud overwrite : bool) : result object :=
  let locals :=
    [ ("work_dir", OStr work_dir); ("data_config", ODict data_config);
      ("cloud", OBool cloud); ("overwrite", OBool overwrite) ] in
  load_name locals module_globals "gdf".
End LoadPro.

(** ** [create_figure] *)

(** The map frame of the layout, as the literals of the source give it. *)
Record Mapbox : Type := {
  mapbox_style : string;
  center_lat : Z;
  center_lon : Z;
  mapbox_zoom : Z;
  bounds_west : Z;
  bounds_east : Z;
  bounds_north : Z;
  bounds_south : Z
}.

Record Layout : Type := {
  layout_mapbox : Mapbox;
  layout_autosize : bool;
  margin_l : Z;
  margin_r : Z;
  margin_t : Z;
  margin_b : Z;
  layout_height : Z;
  layout_width : Z
}.

Section CreateFigure.
Context `{PyFloat}.

(** The GeoJSON mapping of a frame; the figure only carries it. *)
Context {GeoJson : Type}.

(** [figure_df.__geo_interface__] *)
Variable geo_interface : DataFrame → result GeoJson.

(** A [Choroplethmapbox] trace. The opacity [0.5] is kept as the pair
    numerator, denominator. *)
Record Trace : Type := {
  trace_name : string;
  trace_geojson : GeoJson;
  trace_locations : list value;
  trace_z : list value;
  trace_marker_opacity : Z * Z;
  trace_hovertemplate : string
}.

Record ChoroplethFigure : Type := {
  figure_data : list Trace;
  figure_layout : Layout
}.

(** [df.set_index(label)]: the column becomes the row labels and leaves the
    columns. Labels are taken to be distinct. *)
Definition set_index (df : DataFrame) (label : string) : result DataFrame :=
  cells ← getitem df label;
  Ok {| index := cells;
        columns := List.filter (λ c, negb (String.eqb c.1 label)) (columns df) |}.

(** plotly's constructors are taken to accept the arguments they are
    given here. *)
Definition create_figure (gdf : DataFrame) (gdf_column : ColumnSpec)
  : result ChoroplethFigure :=
  (* Create figure data *)
  let figure_df := gdf in
  figure_df ← set_index figure_df "Location";
  figure_geojson ← geo_interface figure_df;
  (* Create and add choroplethmap trace *)
  z ← getitem figure_df (rename gdf_column);
  let trace :=
    {| trace_name := "Census Data";
       trace_geojson := figure_geojson;
       trace_locations := index figure_df;
       trace_z := z;
       trace_marker_opacity := (1, 2);
       trace_hovertemplate :=
         "<b>Location</b>: %{location}<br>" +:+
         "<b>" +:+ rename gdf_column +:+ "</b>: %{z:.2s}" +:+
         "<extra></extra>" |} in
  (* Create and add map layout *)
  let layout :=
    {| layout_mapbox :=
         {| mapbox_style := "carto-positron";
            center_lat := -25;
            center_lon := 130;
            mapbox_zoom := 2;
            bounds_west := 85;
            bounds_east := 185;
            bounds_north := 0;
            bounds_south := -50 |};
       layout_autosize := true;
       margin_l := 0;
       margin_r := 0;
       margin_t := 0;
       margin_b := 0;
       layout_height := 650;
       layout_width := 1300 |} in
  Ok {| figure_data := [trace]; figure_layout := layout |}.
End CreateFigure.

(** ** A run of [save_figure] calls *)

Section SaveRuns.
Context {Figure : Type}.
Variable writable : string → bool.

(** The arguments of one call. *)
Record SaveRequest : Type := {
  req_work_dir : string;
  req_figure : Figure;
  req_file_type : string;
  req_year : Z;
  req_topic : string;
  req_area : string;
  req_spec : string;
  req_type : string
}.

Definition save_request (fs : gmap string (@document Figure)) (r : SaveRequest)
  : result (gmap string document) :=
  save_figure writable fs (req_work_dir r) (req_figure r) (req_file_type r)
    (req_year r) (req_topic r) (req_area r) (req_spec r) (req_type r).

(** The calls one after the other; a call that raises leaves the store as
    it was. *)
Fixpoint run_saves (reqs : list SaveRequest) (fs : gmap string (@document Figure))
  : gmap string document :=
  match reqs with
  | [] => fs
  | r :: reqs' =>
      match save_request fs r with
      | Ok fs' => run_saves reqs' fs'
      | Raise _ => run_saves reqs' fs
      end
  end.
End SaveRuns.

(** ** [load_cloud_data] and [load_raw] *)

Section LoadRaw.
Context `{PyFloat}.

(** [gpd.read_file(filename=..., layer=...)] *)
Variable read_file : string → string → result DataFrame.

(** The storage client: [BlobServiceClient.from_connection_string],
    [get_container_client], [list_blobs], and what iterating the pager
    yields: the blob names, and the exception that ends the iteration
    early, if one does. *)
Context {Client Container Pager : Type}.
Variable from_connection_string : fpart → result Client.
Variable get_container_client : Client → string → Container.
Variable list_blobs : Container → Pager.
Variable blob_names : Pager → list string * option exn.

(** [load_local_data] on the values of a dictionary, which the f-strings
    format whatever they are. *)
Definition load_local_data_values (work_dir : string)
    (data_year data_topic geo_area gda_spec gda_type : fpart) : result DataFrame :=
  let folder :=
    fstring [Lit "Geopackage_"; data_year; Lit "_"; data_topic;
             Lit "_"; geo_area; Lit "_"; gda_spec] in
  let file :=
    fstring [data_topic; Lit "_"; geo_area; Lit "_"; gda_spec; Lit ".gpkg"] in
  let filename :=
    fstring [FStr work_dir; Lit "/raw/"; FStr folder; Lit "/"; FStr file] in
  let layer :=
    fstring [data_topic; Lit "_"; gda_type; Lit "_"; data_year; Lit "_"; geo_area] in
  read_file filename layer.

(** The lines printed, and the pager returned. *)
Definition load_cloud_data (conn_str : fpart) : list string * result Pager :=
  (* Create a BlobServiceClient object using the connection string *)
  match from_connection_string conn_str with
  | Raise e => ([], Raise e)
  | Ok blob_service_client =>
      (* Get the container client object *)
      let container_name := "australian-census-data" in
      let container_client := get_container_client blob_service_client container_name in
      (* List all blobs in the container *)
      let blobs := list_blobs container_client in
      (* Print the names of all blobs *)
      let header :=
        fstring [Lit "Blobs in the container '"; FStr container_name; Lit "':"] in
      let '(names, failure) := blob_names blobs in
      (header :: names,
       match failure with
       | None => Ok blobs
       | Some e => Raise e
       end)
  end.

(** [d[key]] on a dictionary. *)
Definition dict_getitem (d : gmap string fpart) (key : string) : result fpart :=
  match d !! key with
  | Some v => Ok v
  | None => Raise (KeyError [key])
  end.

(** What [load_raw] returns: a frame in local mode, the pager of blobs in
    cloud mode. *)
Inductive raw : Type :=
  | RawFrame (gdf : DataFrame)
  | RawBlobs (blobs : Pager).

(** The lines printed, and the value returned. *)
Definition load_raw (work_dir : string) (data_config : gmap string fpart)
    (cloud overwrite : bool) : list string * result raw :=
  if cloud then
    match dict_getitem data_config "conn_str" with
    | Raise e => ([], Raise e)
    | Ok conn_str =>
        let '(printed, blobs) := load_cloud_data conn_str in
        (printed, gdf ← blobs; Ok (RawBlobs gdf))
    end
  else
    ([],
     data_year ← dict_getitem data_config "data_year";
     data_topic ← dict_getitem data_config "data_topic";
     geo_area ← dict_getitem data_config "geo_area";
     gda_spec ← dict_getitem data_config "gda_spec";
     gda_type ← dict_getitem data_config "gda_type";
     gdf ← load_local_data_values work_dir data_year data_topic geo_area gda_spec gda_type;
     Ok (RawFrame gdf)).
End LoadRaw.

(** ** The specification's side: the artifact key and its serialization *)

Record ArtifactKey : Type := {
  year : Z;
  topic : string;
  area : string;
  datumSpec : string;
  boundaryType : string
}.

(** The canonical serialization as the specification words it:
    ["{topic}_{boundaryType}_{year}_{area}_{datumSpec}"]. *)
Definition serialize_spec (k : ArtifactKey) : string :=
  topic k +:+ "_" +:+ boundaryType k +:+ "_" +:+ str_of_int (year k) +:+ "_"
  +:+ area k +:+ "_" +:+ datumSpec k.

(** The figure path: [{workDir}/figure/{serialize(key)}.{ext}]. *)
Definition figure_path_spec (work_dir : string) (k : ArtifactKey) (ext : string) : string :=
  work_dir +:+ "/figure/" +:+ serialize_spec k +:+ "." +:+ ext.

(** The local source layout:
    [{workDir}/raw/Geopackage_{year}_{topic}_{area}_{datumSpec}/{topic}_{area}_{datumSpec}.gpkg]
    and the layer [{topic}_{boundaryType}_{year}_{area}]. *)
Definition folder_spec (k : ArtifactKey) : string :=
  "Geopackage_" +:+ str_of_int (year k) +:+ "_" +:+ topic k +:+ "_" +:+ area k
  +:+ "_" +:+ datumSpec k.

Definition file_spec (k : ArtifactKey) : string :=
  topic k +:+ "_" +:+ area k +:+ "_" +:+ datumSpec k +:+ ".gpkg".

Definition layer_spec (k : ArtifactKey) : string :=
  topic k +:+ "_" +:+ boundaryType k +:+ "_" +:+ str_of_int (year k) +:+ "_" +:+ area k.

Definition source_path_spec (work_dir : string) (k : ArtifactKey) : string :=
  work_dir +:+ "/raw/" +:+ folder_spec k +:+ "/" +:+ file_spec k.

(** ** Tests on text used in the proofs *)

Definition has_underscore (s : string) : bool :=
  existsb (Ascii.eqb "_") (list_ascii_of_string s).

(** The last character of a text. *)
Fixpoint last_char (s : string) : option ascii :=
  match s with
  | EmptyString => None
  | String c EmptyString => Some c
  | String _ s' => last_char s'
  end.

(** What the documents of a store written by [save_figure] calls are: an
    html document sits at a path ending in [l], a json document is the
    figure of a json request, at the path of that request. *)
Definition written_by {Figure : Type} (reqs : list (@SaveRequest Figure))
    (fs : gmap string (@document Figure)) : Prop :=
  ∀ path doc, fs !! path = Some doc →
    match doc with
    | HtmlDoc _ => last_char path = Some "l"%char
    | JsonDoc figure =>
        ∃ r, r ∈ reqs ∧ req_file_type r = "json" ∧ req_figure r = figure
             ∧ path = fstring [FStr (req_work_dir r); Lit "/figure/";
                               FStr (fstring [FStr (req_topic r); Lit "_";
                                              FStr (req_type r); Lit "_";
                                              FInt (req_year r); Lit "_";
                                              FStr (req_area r); Lit "_";
                                              FStr (req_spec r)]);
                               Lit ".json"]
    end.

(** ** Scenario data *)

(** A float interface with a single value, a nan, enough to run the
    scenarios, none of which holds a float or text beyond ASCII. *)
Definition never_cast_range (x : unit) (z : Z) :
  IntCastValueError = IntCast z → - 2 ^ 63 ≤ z < 2 ^ 63.
Proof. discriminate. Qed.

Definition unit_float : PyFloat := {|
  float := unit;
  float_nan := tt;
  float_of_str := λ _, None;
  float_of_int := λ _, Some tt;
  str_of_float := λ _, "nan";
  float_to_int := λ _, IntCastValueError;
  float_to_int_range := never_cast_range;
  int_of_other_text := λ _, None |}.

Module Scenario.
Section Rows.
Context `{PyFloat}.

Definition G1 : Geom := {| wkt := "POLYGON ((0 0, 1 0, 1 1, 0 0))" |}.

Definition population : ColumnSpec :=
  {| name := "pop"; rename := "Population"; type := Int |}.

(** Scenario A, the rows as the specification prints them. *)
Definition rows_as_printed : DataFrame :=
  {| index := [VInt 0; VInt 1];
     columns := [ ("name", [VStr "Brisbane"; VStr "Cairns"]);
                  ("pop", [VStr "2500000"; VStr "150000"]);
                  ("geometry", [VGeom G1; VNone]) ] |}.

(** Scenario A with the boundary-name column under the label the code
    derives for year 2021 and boundary type SA4. *)
Definition rows_A : DataFrame :=
  {| index := [VInt 0; VInt 1];
     columns := [ ("SA4_NAME_2021", [VStr "Brisbane"; VStr "Cairns"]);
                  ("pop", [VStr "2500000"; VStr "150000"]);
                  ("geometry", [VGeom G1; VNone]) ] |}.

(** The one row Scenario A expects. *)
Definition table_A : DataFrame :=
  {| index := [VInt 0];
     columns := [ ("Location", [VStr "Brisbane"]);
                  ("Population", [VInt 2500000]);
                  ("geometry", [VGeom G1]) ] |}.

(** Scenario B: Brisbane's population is not a number. *)
Definition rows_B : DataFrame :=
  {| index := [VInt 0; VInt 1];
     columns := [ ("SA4_NAME_2021", [VStr "Brisbane"; VStr "Cairns"]);
                  ("pop", [VStr "N/A"; VStr "150000"]);
                  ("geometry", [VGeom G1; VNone]) ] |}.


(** Postal areas: the boundary names are post codes. *)
Definition rows_postcodes : DataFrame :=
  {| index := [VInt 0; VInt 1];
     columns := [ ("POA_NAME_2021", [VStr "4000"; VStr "4870"]);
                  ("pop", [VStr "2500000"; VStr "150000"]);
                  ("geometry", [VGeom G1; VNone]) ] |}.

(** A value spec whose target name is Location. *)
Definition population_as_location : ColumnSpec :=
  {| name := "pop"; rename := "Location"; type := Int |}.
End Rows.

(** Scenario C. *)
Definition key_C : ArtifactKey :=
  {| year := 2021; topic := "G01"; area := "AUST"; datumSpec := "GDA2020";
     boundaryType := "SA4" |}.

(** A store of figures, each named by a text, that holds nothing yet, in a
    directory that can be written. *)
Definition empty_store : gmap string (@document string) := ∅.

Definition always_writable : string → bool := λ _, true.
End Scenario.

(** ** More cases to run the code on *)

Module Cases.
Section Rows.
Context `{PyFloat}.

(** The rows of Scenario A with other row labels, a column more and the
    columns in another order. *)
Definition rows_A_wider : DataFrame :=
  {| index := [VStr "first"; VStr "second"];
     columns := [ ("geometry", [VGeom Scenario.G1; VNone]);
                  ("STATE_NAME_2021", [VStr "Queensland"; VStr "Queensland"]);
                  ("pop", [VStr "2500000"; VStr "150000"]);
                  ("SA4_NAME_2021", [VStr "Brisbane"; VStr "Cairns"]) ] |}.



(** Four rows under labels of their own, the second without a geometry,
    and the three rows the call makes of them. *)
Definition G2 : Geom := {| wkt := "POLYGON ((2 2, 3 2, 3 3, 2 2))" |}.

Definition rows_gap : DataFrame :=
  {| index := [VStr "a"; VStr "b"; VStr "c"; VStr "d"];
     columns := [ ("SA4_NAME_2021",
                   [VStr "Brisbane"; VStr "Cairns"; VStr "Darwin"; VStr "Hobart"]);
                  ("pop", [VStr "2500000"; VStr "150000"; VStr "140000"; VStr "250000"]);
                  ("geometry", [VGeom Scenario.G1; VNone; VGeom G2; VGeom Scenario.G1]) ] |}.

Definition table_gap : DataFrame :=
  {| index := [VInt 0; VInt 1; VInt 2];
     columns := [ ("Location", [VStr "Brisbane"; VStr "Darwin"; VStr "Hobart"]);
                  ("Population", [VInt 2500000; VInt 140000; VInt 250000]);
                  ("geometry", [VGeom Scenario.G1; VGeom G2; VGeom Scenario.G1]) ] |}.

(** A value spec that reads the boundary names. *)
Definition names_as_value : ColumnSpec :=
  {| name := "SA4_NAME_2021"; rename := "Name"; type := Str |}.

(** A GeoJSON mapping reduced to its number of features. *)
Definition count_features (df : DataFrame) : result nat := Ok (length (index df)).

(** A reader that finds no file. *)
Definition no_file (filename layer : string) : result DataFrame :=
  Raise (FileNotFoundError filename).
End Rows.

(** A dictionary with the five keys of local mode, and one without the
    area. *)
Definition local_config : gmap string fpart :=
  <["data_year" := FInt 2021]> (<["data_topic" := FStr "G01"]>
  (<["geo_area" := FStr "AUST"]> (<["gda_spec" := FStr "GDA2020"]>
  (<["gda_type" := FStr "SA4"]> ∅)))).

Definition config_without_area : gmap string fpart :=
  <["data_year" := FInt 2021]> (<["data_topic" := FStr "G01"]>
  (<["gda_spec" := FStr "GDA2020"]> (<["gda_type" := FStr "SA4"]> ∅))).

(** A storage account whose container holds two blobs. *)
Definition cloud_config : gmap string fpart :=
  <["conn_str" := FStr "UseDevelopmentStorage=true"]> ∅.

Definition connect (conn_str : fpart) : result unit := Ok tt.
Definition container_of (client : unit) (container_name : string) : string := container_name.
Definition pager_of (container : string) : string := container.
Definition two_blobs (pager : string) : list string * option exn :=
  (["G01_AUST_GDA2020.gpkg"; "G02_AUST_GDA2020.gpkg"], None).
End Cases.

(** * Properties *)

(** ** The result monad *)

Lemma bind_Ok_inv {A B} (m : result A) (f : A → result B) (b : B) :
  m ≫= f = Ok b → ∃ a, m = Ok a ∧ f a = Ok b.
Proof. destruct m as [a|e]; simpl; [eauto | discriminate]. Qed.

Lemma mapM_result_Ok {A B} (f : A → result B) (l : list A) (l' : list B) :
  mapM_result f l = Ok l' ↔ Forall2 (λ x y, f x = Ok y) l l'.
Proof.
  revert l'. induction l as [|x l IH]; intros l'; simpl.
  - split; [intros [= <-]; constructor | by inversion 1].
  - split.
    + intros Hb. apply bind_Ok_inv in Hb as (y & Hy & Hb).
      apply bind_Ok_inv in Hb as (ys & Hys & [= <-]).
      constructor; [done | by apply IH].
    + inversion 1 as [|? y ? ys Hy Hys]; subst.
      apply IH in Hys. by rewrite Hy, Hys.
Qed.



(** ** Dictionaries *)

Lemma dict_get_set_eq {V} (d : list (string * V)) k v :
  dict_get (dict_set k v d) k = Some v.
Proof.
  induction d as [|[k' v'] d IH]; simpl.
  - by rewrite String.eqb_refl.
  - destruct (String.eqb_spec k' k) as [->|Hne]; simpl.
    + by rewrite String.eqb_refl.
    + by destruct (String.eqb_spec k' k).
Qed.

Lemma dict_get_set_ne {V} (d : list (string * V)) k k' v :
  k ≠ k' → dict_get (dict_set k v d) k' = dict_get d k'.
Proof.
  intros Hne. induction d as [|[k0 v0] d IH]; simpl.
  - by destruct (String.eqb_spec k k').
  - destruct (String.eqb_spec k0 k) as [->|Hne0]; simpl.
    + by destruct (String.eqb_spec k k').
    + by rewrite IH.
Qed.

Lemma dict_keys_set {V} (d : list (string * V)) k v k' :
  k' ∈ (dict_set k v d).*1 ↔ k' = k ∨ k' ∈ d.*1.
Proof.
  induction d as [|[k0 v0] d IH]; simpl.
  - rewrite list_elem_of_singleton. split; [by left | intros [?|?%elem_of_nil]; done].
  - destruct (String.eqb_spec k0 k) as [->|Hne]; simpl;
      rewrite !elem_of_cons; [|rewrite IH]; naive_solver.
Qed.

Lemma dict_get_Some_elem {V} (d : list (string * V)) k v :
  dict_get d k = Some v → (k, v) ∈ d.
Proof.
  induction d as [|[k0 v0] d IH]; simpl; [done|].
  destruct (String.eqb_spec k0 k) as [->|Hne].
  - intros [= ->]. left.
  - intros. right. auto.
Qed.

Lemma dict_get_None {V} (d : list (string * V)) k :
  dict_get d k = None ↔ k ∉ d.*1.
Proof.
  induction d as [|[k0 v0] d IH]; simpl.
  - split; [intros _; apply not_elem_of_nil | done].
  - destruct (String.eqb_spec k0 k) as [->|Hne].
    + split; [done | intros []; left].
    + rewrite IH, not_elem_of_cons. naive_solver.
Qed.

Lemma dict_get_fmap {V W} (g : V → W) (d : list (string * V)) k :
  dict_get ((λ c, (c.1, g c.2)) <$> d) k = g <$> dict_get d k.
Proof.
  induction d as [|[k0 v0] d IH]; simpl; [done|].
  by destruct (String.eqb k0 k).
Qed.

(** ** Masks and surviving rows *)

Lemma filter_mask_length_le {A} (mask : list bool) (l : list A) :
  (length (filter_mask mask l) ≤ length l)%nat.
Proof.
  revert l. induction mask as [|b mask IH]; intros [|x l]; simpl; try lia.
  specialize (IH l). destruct b; simpl; lia.
Qed.

Lemma filter_mask_length {A} (mask : list bool) (l : list A) i0 :
  length l = length mask →
  length (filter_mask mask l) = length (survivors_from i0 mask).
Proof.
  revert l i0. induction mask as [|b mask IH]; intros [|x l] i0; simpl; try done.
  intros [= Hlen]. destruct b; simpl; erewrite IH; done.
Qed.

Lemma survivors_from_ge i0 mask i : i ∈ survivors_from i0 mask → (i0 ≤ i)%nat.
Proof.
  revert i0. induction mask as [|b mask IH]; intros i0; simpl.
  - by intros ?%elem_of_nil.
  - destruct b; [rewrite elem_of_cons; intros [->|Hin]|intros Hin];
      try apply IH in Hin; lia.
Qed.

Lemma survivors_from_elem i0 mask i :
  i ∈ survivors_from i0 mask ↔ (i0 ≤ i)%nat ∧ mask !! (i - i0)%nat = Some true.
Proof.
  revert i0. induction mask as [|b mask IH]; intros i0; simpl.
  - split; [by intros ?%elem_of_nil | by intros [_ ?]].
  - destruct (decide (i = i0)) as [->|Hne].
    + replace (i0 - i0)%nat with 0%nat by lia. simpl.
      destruct b.
      * split; [done | intros; left].
      * rewrite IH. split; [lia | intros [_ [=]]].
    + assert (Hidx : (b :: mask) !! (i - i0)%nat = mask !! (i - S i0)%nat ∨ (i < i0)%nat).
      { destruct (decide (i < i0)%nat); [by right | left].
        replace (i - i0)%nat with (S (i - S i0)) by lia. done. }
      destruct b; [rewrite elem_of_cons|]; rewrite IH.
      * split.
        -- intros [?|[? ?]]; [done|]. destruct Hidx as [->|?]; [|lia]. split; [lia|done].
        -- intros [? Hl]. right. destruct Hidx as [Heq|?]; [|lia].
           rewrite Heq in Hl. split; [lia|done].
      * split.
        -- intros [? ?]. destruct Hidx as [->|?]; [|lia]. split; [lia|done].
        -- intros [? Hl]. destruct Hidx as [Heq|?]; [|lia].
           rewrite Heq in Hl. split; [lia|done].
Qed.

Lemma survivors_from_sorted i0 mask : StronglySorted lt (survivors_from i0 mask).
Proof.
  revert i0. induction mask as [|b mask IH]; intros i0; simpl; [constructor|].
  destruct b; [|apply IH].
  constructor; [apply IH|].
  apply Forall_forall. intros i Hin%survivors_from_ge. lia.
Qed.

(** Row [k] of a filtered column is the source row at the [k]-th surviving
    position. *)
Lemma filter_mask_lookup {A} (mask : list bool) (l : list A) i0 k i :
  length l = length mask →
  survivors_from i0 mask !! k = Some i →
  filter_mask mask l !! k = l !! (i - i0)%nat.
Proof.
  revert l i0 k. induction mask as [|b mask IH]; intros [|x l] i0 k; simpl; try done.
  intros [= Hlen] Hk. destruct b.
  - destruct k as [|k]; simpl in *.
    + injection Hk as <-. by replace (i0 - i0)%nat with 0%nat by lia.
    + pose proof (list_elem_of_lookup_2 _ _ _ Hk) as Hge%survivors_from_ge.
      rewrite (IH l (S i0) k Hlen Hk).
      by replace (i - i0)%nat with (S (i - S i0)) by lia.
  - pose proof (list_elem_of_lookup_2 _ _ _ Hk) as Hge%survivors_from_ge.
    rewrite (IH l (S i0) k Hlen Hk).
    by replace (i - i0)%nat with (S (i - S i0)) by lia.
Qed.

Section Frames.
Context `{PyFloat}.

Lemma filter_mask_ne_None (geometry : list value) :
  Forall (λ g, g ≠ VNone) (filter_mask (ne_None <$> geometry) geometry).
Proof.
  induction geometry as [|g geometry IH]; simpl; [constructor|].
  destruct g; simpl; try done; constructor; done.
Qed.

Lemma survivors_spec (geometry : list value) i :
  i ∈ survivors geometry ↔ ∃ g, geometry !! i = Some g ∧ g ≠ VNone.
Proof.
  unfold survivors. rewrite survivors_from_elem, Nat.sub_0_r, list_lookup_fmap.
  split.
  - intros [_ Hi]. destruct (geometry !! i) as [g|]; [|done].
    exists g. split; [done|]. by destruct g.
  - intros (g & -> & Hg). split; [lia|]. by destruct g.
Qed.

(** ** Frames *)

Lemma has_column_true (df : DataFrame) label :
  has_column df label = true ↔ label ∈ labels df.
Proof.
  unfold has_column. rewrite existsb_exists. split.
  - intros (l & Hin & ->%String.eqb_eq). by apply list_elem_of_In.
  - intros Hin. exists label. rewrite String.eqb_refl.
    split; [by apply list_elem_of_In | done].
Qed.

Lemma has_column_getitem (df : DataFrame) label :
  has_column df label = true ↔ ∃ cells, dict_get (columns df) label = Some cells.
Proof.
  rewrite has_column_true. unfold labels.
  destruct (dict_get (columns df) label) as [cells|] eqn:Hget.
  - split; [eauto|]. intros _.
    apply dict_get_Some_elem in Hget.
    apply list_elem_of_fmap. by exists (label, cells).
  - apply dict_get_None in Hget. split; [done | by intros [? ?]].
Qed.

Lemma has_column_false (df : DataFrame) label :
  has_column df label = false ↔ dict_get (columns df) label = None.
Proof.
  rewrite <- not_true_iff_false, has_column_getitem.
  destruct (dict_get _ _); [|split; [done | by intros _ [? ?]]].
  split; [intros []; eauto | done].
Qed.

(** With distinct labels, selecting by a label yields its one column. *)
Lemma filter_label_NoDup (cols : list (string * list value)) label cells :
  NoDup cols.*1 → dict_get cols label = Some cells →
  List.filter (λ c, String.eqb c.1 label) cols = [(label, cells)].
Proof.
  induction cols as [|[l0 c0] cols IH]; simpl; [done|].
  rewrite NoDup_cons. intros [Hnotin Hnd].
  destruct (String.eqb_spec l0 label) as [->|Hne].
  - intros [= ->]. f_equal.
    clear IH Hnd. induction cols as [|[l1 c1] cols IH]; simpl; [done|].
    simpl in Hnotin. apply not_elem_of_cons in Hnotin as [Hne Hnotin].
    destruct (String.eqb_spec l1 label) as [->|_]; [done | auto].
  - auto.
Qed.
End Frames.

(** ** [astype] *)

Section Astype.
Context `{PyFloat}.

Lemma to_int64_Ok z z' : to_int64 z = Ok z' ↔ z' = z ∧ - 2 ^ 63 ≤ z < 2 ^ 63.
Proof.
  unfold to_int64. destruct (_ && _)%bool eqn:Hrange.
  - apply andb_true_iff in Hrange as [?%Z.leb_le ?%Z.ltb_lt].
    split; [intros [= <-] | intros [-> _]]; [lia | done].
  - apply andb_false_iff in Hrange as [?%Z.leb_gt | ?%Z.ltb_ge];
      (split; [done | lia]).
Qed.


Lemma wrap_int64_range n : - 2 ^ 63 ≤ wrap_int64 n < 2 ^ 63.
Proof.
  unfold wrap_int64.
  pose proof (Z.mod_pos_bound (n + 2 ^ 63) (2 ^ 64) ltac:(lia)). lia.
Qed.

(** The cast of an unsigned column wraps; a Python integer beyond 64 bits,
    or a text that reads as one, raises. *)
Example int64_cell_cases :
  int64_cell (VUInt64 5) = Ok 5
  ∧ int64_cell (VUInt64 (2 ^ 63)) = Ok (- 2 ^ 63)
  ∧ int64_cell (VUInt64 (2 ^ 64 - 1)) = Ok (-1)
  ∧ int64_cell (VInt (2 ^ 63 - 1)) = Ok (2 ^ 63 - 1)
  ∧ int64_cell (VInt (2 ^ 63)) = Raise OverflowError
  ∧ int64_cell (VInt (- 2 ^ 63 - 1)) = Raise OverflowError
  ∧ int64_cell (VStr "9223372036854775808") = Raise OverflowError
  ∧ int64_cell (VStr "-9223372036854775808") = Ok (- 2 ^ 63)
  ∧ int64_cell (VStr "N/A") = Raise (ValueError None)
  ∧ int64_cell VNone = Raise TypeError.
Proof. repeat split; reflexivity. Qed.

(** The cast to [int64] yields a 64-bit integer, whatever the storage. *)
Lemma int64_cell_range v z : int64_cell v = Ok z → - 2 ^ 63 ≤ z < 2 ^ 63.
Proof.
  destruct v as [|s|z0|x|g|n]; simpl; try done.
  - destruct (int_of_text s) as [z1|]; [|done].
    intros Hz%to_int64_Ok. destruct Hz as [-> Hz]. exact Hz.
  - intros Hz%to_int64_Ok. destruct Hz as [-> Hz]. exact Hz.
  - destruct (float_to_int x) eqn:Hx; try done.
    intros [= <-]. by eapply float_to_int_range.
  - intros [= <-]. apply wrap_int64_range.
Qed.

Lemma astype_cell_has_dtype t v v' : astype_cell t v = Ok v' → has_dtype t v'.
Proof.
  destruct t; simpl.
  - intros [= <-]. eauto.
  - intros (z & Hz & [= <-])%bind_Ok_inv.
    exists z. split; [done|]. by eapply int64_cell_range.
  - intros (x & _ & [= <-])%bind_Ok_inv. eauto.
  - destruct v; intros [= <-]; eauto.
Qed.


Lemma astype_column_Ok t label cells cells' :
  astype_column t label cells = Ok cells' ↔
  Forall2 (λ v v', astype_cell t v = Ok v') cells cells'.
Proof.
  unfold astype_column. rewrite <- mapM_result_Ok.
  destruct (mapM_result _ _) as [?|[]]; naive_solver.
Qed.



(** A column of geometries is left as it is by the cast to geometry. *)
Lemma astype_column_geometry label cells cells' :
  astype_column Geometry label cells = Ok cells' → cells' = cells.
Proof.
  rewrite astype_column_Ok. induction 1 as [|v v' ? ? Hv _ IH]; [done|].
  f_equal; [|done]. by destruct v; simplify_eq/=.
Qed.

Lemma astype_column_str label cells :
  astype_column Str label cells = Ok ((λ v, VStr (py_str v)) <$> cells).
Proof.
  apply astype_column_Ok. induction cells; simpl; by constructor.
Qed.

(** What [astype] returns: the same rows and labels; a column is cast
    when its label is a key of the dictionary. *)
Lemma astype_Ok_inv (df out : DataFrame) types :
  astype df types = Ok out →
  index out = index df ∧
  Forall (λ k, has_column df k = true) types.*1 ∧
  Forall2 (λ c c', c'.1 = c.1 ∧
                   match dict_get types c.1 with
                   | Some t => astype_column t c.1 c.2 = Ok c'.2
                   | None => c'.2 = c.2
                   end) (columns df) (columns out).
Proof.
  unfold astype.
  destruct (List.filter _ (types.*1)) as [|k ks] eqn:Hkeys; [|done].
  intros (cols & Hcols & [= <-])%bind_Ok_inv. simpl.
  split_and!; [done | |].
  - apply Forall_forall. intros k Hk.
    destruct (has_column df k) eqn:Hhas; [done|].
    assert (Hin : In k (List.filter (λ k, negb (has_column df k)) types.*1)).
    { apply filter_In. split; [by apply list_elem_of_In | by rewrite Hhas]. }
    rewrite Hkeys in Hin. destruct Hin.
  - apply mapM_result_Ok in Hcols.
    eapply Forall2_impl; [exact Hcols|].
    intros [l c] [l' c']; simpl. destruct (dict_get types l) as [t|].
    + intros (cells & Hc & [= <- <-])%bind_Ok_inv. done.
    + intros [= <- <-]. done.
Qed.
End Astype.

(** ** The boundary-name label *)

Lemma has_underscore_app s1 s2 :
  has_underscore s2 = true → has_underscore (s1 +:+ s2) = true.
Proof.
  unfold has_underscore. intros Hs2. induction s1 as [|c s1 IH]; simpl; [done|].
  rewrite IH. apply orb_true_r.
Qed.

Lemma boundary_name_column_not_geometry data_year gda_type :
  boundary_name_column data_year gda_type ≠ "geometry".
Proof.
  intros Heq.
  assert (Hu : has_underscore (boundary_name_column data_year gda_type) = true).
  { unfold boundary_name_column, fstring. simpl. by apply has_underscore_app. }
  rewrite Heq in Hu. discriminate.
Qed.

(** ** [process_data], step by step *)

Ltac string_cases :=
  repeat match goal with
    | |- context [String.eqb ?a ?b] =>
        destruct (String.eqb_spec a b); try congruence; try subst
    | H : context [String.eqb ?a ?b] |- _ =>
        destruct (String.eqb_spec a b); try congruence; try subst
    end.

Ltac not_in_list :=
  let Hin := fresh "Hin" in
  intros Hin;
  repeat (apply elem_of_cons in Hin as [Hin|Hin]; [congruence|]);
  by apply elem_of_nil in Hin.

Section ProcessData.
Context `{PyFloat}.
Implicit Types (gdf out : DataFrame) (gdf_column : ColumnSpec).

(** A source column that is not there ends the call with a [KeyError]
    listing labels the frame does not have. *)
Lemma process_data_missing gdf gdf_column data_year gda_type :
  has_column gdf (boundary_name_column data_year gda_type)
    && has_column gdf (name gdf_column) && has_column gdf "geometry" = false →
  ∃ missing, process_data gdf gdf_column data_year gda_type = Raise (KeyError missing)
    ∧ missing ≠ []
    ∧ Forall (λ label, has_column gdf label = false
                       ∧ label ∈ [ boundary_name_column data_year gda_type;
                                   name gdf_column; "geometry" ]) missing.
Proof.
  intros Hmiss. unfold process_data, getitem.
  destruct (dict_get (columns gdf) "geometry") as [geometry|] eqn:Hgeo.
  - cbn [mbind result_bind]. cbv zeta. unfold getitem_list.
    set (gdf1 := reset_index _).
    assert (Hsame : ∀ l, has_column gdf1 l = has_column gdf l).
    { intros l. unfold has_column, labels, gdf1. simpl.
      by rewrite <- list_fmap_compose. }
    set (names := name <$> _).
    destruct (List.filter _ names) as [|m ms] eqn:Hfilter.
    + exfalso.
      assert (Hall : ∀ l, In l names → has_column gdf l = true).
      { intros l Hin. destruct (has_column gdf l) eqn:Hl; [done|].
        assert (Hf : In l (List.filter (λ n, negb (has_column gdf1 n)) names)).
        { apply filter_In. by rewrite Hsame, Hl. }
        rewrite Hfilter in Hf. destruct Hf. }
      rewrite !andb_false_iff in Hmiss. destruct Hmiss as [[Hm|Hm]|Hm];
        rewrite Hall in Hm; try done; unfold names; simpl; auto.
    + cbn [mbind result_bind]. eexists. split_and!; [done | done |].
      apply Forall_forall. intros l Hl%list_elem_of_In.
      rewrite <- Hfilter in Hl.
      apply filter_In in Hl as [Hin%list_elem_of_In Hl]. rewrite Hsame in Hl.
      split; [by destruct (has_column gdf l) | exact Hin].
  - exists ["geometry"]. split_and!; [done | done |].
    constructor; [|constructor]. split; [by apply has_column_false|].
    do 2 right. left.
Qed.

(** With the three source columns found, the call is the cast of the
    three filtered, renamed columns. *)
Lemma process_data_selected gdf gdf_column data_year gda_type cN cn cg :
  NoDup (labels gdf) →
  dict_get (columns gdf) (boundary_name_column data_year gda_type) = Some cN →
  dict_get (columns gdf) (name gdf_column) = Some cn →
  dict_get (columns gdf) "geometry" = Some cg →
  let N := boundary_name_column data_year gda_type in
  let mask := ne_None <$> cg in
  process_data gdf gdf_column data_year gda_type =
    astype
      (rename_columns
         {| index := range_index (length (filter_mask mask (index gdf)));
            columns := [ (N, filter_mask mask cN);
                         (name gdf_column, filter_mask mask cn);
                         ("geometry", filter_mask mask cg) ] |}
         (dict_of_items [ (N, "Location");
                          (name gdf_column, rename gdf_column);
                          ("geometry", "geometry") ]))
      (dict_of_items [ ("Location", Str);
                       (rename gdf_column, type gdf_column);
                       ("geometry", Geometry) ]).
Proof.
  intros Hnd HN Hn Hg N mask. unfold process_data, getitem. rewrite Hg.
  cbn [mbind result_bind]. cbv zeta. fold mask. unfold getitem_list.
  set (gdf1 := reset_index _).
  assert (Hcols : ∀ l c, dict_get (columns gdf) l = Some c →
                         dict_get (columns gdf1) l = Some (filter_mask mask c)).
  { intros l c Hl. unfold gdf1. simpl. by rewrite dict_get_fmap, Hl. }
  assert (Hnd1 : NoDup (columns gdf1).*1).
  { unfold gdf1. simpl. by rewrite <- list_fmap_compose. }
  assert (Hhas : ∀ l c, dict_get (columns gdf) l = Some c → has_column gdf1 l = true).
  { intros l c Hl. apply has_column_getitem. eauto. }
  cbn [fmap list_fmap name List.filter flat_map].
  change (fstring [FStr gda_type; Lit "_NAME_"; FInt data_year]) with N.
  rewrite (Hhas N cN HN), (Hhas _ _ Hn), (Hhas _ _ Hg).
  cbn [negb mbind result_bind].
  rewrite (filter_label_NoDup _ N _ Hnd1 (Hcols _ _ HN)).
  rewrite (filter_label_NoDup _ _ _ Hnd1 (Hcols _ _ Hn)).
  rewrite (filter_label_NoDup _ _ _ Hnd1 (Hcols _ _ Hg)).
  done.
Qed.

(** The labels after renaming: the geometry entry comes last in the
    dictionary of names and wins over an earlier entry for the same
    source label. *)
Lemma renamed_labels (N n r : string) :
  N ≠ "geometry" →
  let names := dict_of_items [(N, "Location"); (n, r); ("geometry", "geometry")] in
  rename_label names N = (if String.eqb N n then r else "Location")
  ∧ rename_label names n = (if String.eqb n "geometry" then "geometry" else r)
  ∧ rename_label names "geometry" = "geometry".
Proof.
  intros HN. unfold rename_label, dict_of_items.
  split_and!; repeat (cbn [fold_left dict_set dict_get fst snd default]; string_cases);
    done.
Qed.

Lemma column_types_geometry (r : string) (t : dtype) :
  dict_get (dict_of_items [("Location", Str); (r, t); ("geometry", Geometry)]) "geometry"
  = Some Geometry.
Proof. unfold dict_of_items. simpl. apply dict_get_set_eq. Qed.

Lemma column_types_distinct (r : string) (t : dtype) :
  r ≠ "Location" → r ≠ "geometry" →
  dict_of_items [("Location", Str); (r, t); ("geometry", Geometry)]
  = [("Location", Str); (r, t); ("geometry", Geometry)].
Proof.
  intros. unfold dict_of_items.
  repeat (cbn [fold_left dict_set fst snd]; string_cases); done.
Qed.

(** A spec whose names keep clear of the two built-in entries: the three
    columns are cast one after the other, in the order Location, value,
    geometry. *)
Lemma process_data_distinct gdf gdf_column data_year gda_type cN cn cg :
  NoDup (labels gdf) →
  dict_get (columns gdf) (boundary_name_column data_year gda_type) = Some cN →
  dict_get (columns gdf) (name gdf_column) = Some cn →
  dict_get (columns gdf) "geometry" = Some cg →
  rename gdf_column ≠ "Location" → rename gdf_column ≠ "geometry" →
  name gdf_column ≠ boundary_name_column data_year gda_type →
  name gdf_column ≠ "geometry" →
  let mask := ne_None <$> cg in
  process_data gdf gdf_column data_year gda_type =
    (c1 ← astype_column Str "Location" (filter_mask mask cN);
     c2 ← astype_column (type gdf_column) (rename gdf_column) (filter_mask mask cn);
     c3 ← astype_column Geometry "geometry" (filter_mask mask cg);
     Ok {| index := range_index (length (filter_mask mask (index gdf)));
           columns := [ ("Location", c1); (rename gdf_column, c2); ("geometry", c3) ] |}).
Proof.
  intros Hnd HN Hn Hg Hr1 Hr2 Hn1 Hn2 mask.
  rewrite (process_data_selected _ _ _ _ _ _ _ Hnd HN Hn Hg).
  pose proof (boundary_name_column_not_geometry data_year gda_type) as HNg.
  destruct (renamed_labels _ (name gdf_column) (rename gdf_column) HNg)
    as (HL1 & HL2 & HL3).
  fold mask. unfold rename_columns. cbn [fmap list_fmap columns index fst snd].
  rewrite HL1, HL2, HL3. clear HL1 HL2 HL3.
  destruct (String.eqb_spec (boundary_name_column data_year gda_type) (name gdf_column));
    [congruence|].
  destruct (String.eqb_spec (name gdf_column) "geometry"); [congruence|].
  rewrite column_types_distinct by done.
  unfold astype. cbn [fmap list_fmap fst List.filter].
  set (df := {| index := _ |}).
  assert (Hhas : ∀ l, l ∈ ["Location"; rename gdf_column; "geometry"] →
                      has_column df l = true).
  { intros l Hl. by apply has_column_true. }
  rewrite !Hhas by (rewrite !elem_of_cons; auto).
  cbn [negb]. unfold df. cbn [columns index mapM_result fst snd].
  repeat (cbn [dict_get]; string_cases).
  destruct (astype_column Str _ _) as [c1|?]; [|done].
  cbn [mbind result_bind].
  destruct (astype_column (type gdf_column) _ _) as [c2|?]; [|done].
  cbn [mbind result_bind].
  destruct (astype_column Geometry _ _) as [c3|?]; done.
Qed.



(** A spec that reads one of the two built-in source columns under a
    target name of its own: the cast is asked for a label no column
    carries. *)
Lemma process_data_clash gdf gdf_column data_year gda_type cN cg :
  NoDup (labels gdf) →
  dict_get (columns gdf) (boundary_name_column data_year gda_type) = Some cN →
  dict_get (columns gdf) "geometry" = Some cg →
  rename gdf_column ≠ "Location" → rename gdf_column ≠ "geometry" →
  name gdf_column = boundary_name_column data_year gda_type
    ∨ name gdf_column = "geometry" →
  ∃ k, process_data gdf gdf_column data_year gda_type = Raise (KeyError [k]).
Proof.
  intros Hnd HN Hg Hr1 Hr2 Hn.
  pose proof (boundary_name_column_not_geometry data_year gda_type) as HNg.
  assert (∃ cn, dict_get (columns gdf) (name gdf_column) = Some cn) as [cn Hcn].
  { destruct Hn as [->| ->]; eauto. }
  rewrite (process_data_selected _ _ _ _ _ _ _ Hnd HN Hcn Hg).
  destruct (renamed_labels _ (name gdf_column) (rename gdf_column) HNg)
    as (HL1 & HL2 & HL3).
  unfold rename_columns. cbn [fmap list_fmap columns index fst snd].
  rewrite HL1, HL2, HL3. clear HL1 HL2 HL3.
  rewrite column_types_distinct by done.
  unfold astype. cbn [fmap list_fmap fst List.filter].
  set (df := {| index := _ |}).
  assert (Hhas : ∀ l, has_column df l = true ↔ l ∈ labels df)
    by (intros; apply has_column_true).
  destruct Hn as [Hn|Hn].
  - exists "Location".
    assert (Hno : has_column df "Location" = false).
    { apply not_true_iff_false. rewrite Hhas. unfold df, labels.
      cbn [columns fmap list_fmap fst]. rewrite Hn, String.eqb_refl.
      string_cases. not_in_list. }
    by rewrite Hno.
  - exists (rename gdf_column).
    assert (Hyes : has_column df "Location" = true).
    { rewrite Hhas. unfold df, labels. cbn [columns fmap list_fmap fst].
      rewrite Hn.
      destruct (String.eqb_spec (boundary_name_column data_year gda_type) "geometry");
        [congruence|]. left. }
    assert (Hno : has_column df (rename gdf_column) = false).
    { apply not_true_iff_false. rewrite Hhas. unfold df, labels.
      cbn [columns fmap list_fmap fst].
      rewrite Hn.
      destruct (String.eqb_spec (boundary_name_column data_year gda_type) "geometry");
        [congruence|].
      rewrite String.eqb_refl. not_in_list. }
    by rewrite Hyes, Hno.
Qed.

(** Row by row, a filtered and cast column holds the cells of its source
    column at the surviving positions. *)
Lemma cast_rows (mask : list bool) (c c' : list value) :
  length c = length mask →
  Forall2 cell_of (filter_mask mask c) c' →
  length c' = length (survivors_from 0 mask)
  ∧ ∀ k i, survivors_from 0 mask !! k = Some i →
           ∃ v v', c !! i = Some v ∧ c' !! k = Some v' ∧ cell_of v v'.
Proof.
  intros Hlen Hcast. split.
  - rewrite <- (Forall2_length _ _ _ Hcast). by apply filter_mask_length.
  - intros k i Hk.
    pose proof (filter_mask_lookup mask c 0 k i Hlen Hk) as Hlook.
    rewrite Nat.sub_0_r in Hlook.
    assert (Hlt : (k < length (filter_mask mask c))%nat).
    { rewrite (filter_mask_length _ _ 0 Hlen). by eapply lookup_lt_Some. }
    apply lookup_lt_is_Some in Hlt as [v Hv].
    destruct (Forall2_lookup_l _ _ _ _ _ Hcast Hv) as (v' & Hv' & Hcell).
    exists v, v'. by rewrite <- Hlook.
Qed.
End ProcessData.

(** * The claims *)

Section Normalize.
Context `{PyFloat}.
Implicit Types (gdf out : DataFrame) (gdf_column : ColumnSpec).

(** C4. When the boundary-name column, the value column named by the
    column spec, or the geometry column is absent from the frame,
    [process_data] raises [KeyError] (the specification's [SchemaError])
    for the whole call: no frame is returned, and the labels reported are
    requested labels the frame does not have. *)
Theorem process_data_missing_column gdf gdf_column data_year gda_type :
  has_column gdf (boundary_name_column data_year gda_type)
    && has_column gdf (name gdf_column) && has_column gdf "geometry" = false →
  ∃ missing,
    process_data gdf gdf_column data_year gda_type = Raise (KeyError missing)
    ∧ missing ≠ []
    ∧ Forall (λ label, (label ∉ labels gdf)
                       ∧ label ∈ [ boundary_name_column data_year gda_type;
                                   name gdf_column; "geometry" ]) missing.
Proof.
  intros Hmiss.
  destruct (process_data_missing _ _ _ _ Hmiss) as (missing & Hp & Hne & Hall).
  exists missing. split_and!; [done | done |].
  eapply Forall_impl; [exact Hall|]. intros label [Hno Hin]. split; [|done].
  rewrite <- has_column_true. by rewrite Hno.
Qed.

(** C3 (as amended). Scenario A, with the boundary names under the label
    [SA4_NAME_2021] that the call derives from year 2021 and boundary type
    SA4: the result is the one row for Brisbane, its population read as
    the integer 2500000 and its geometry kept. *)
Theorem scenario_A :
  process_data Scenario.rows_A Scenario.population 2021 "SA4" = Ok Scenario.table_A.
Proof. reflexivity. Qed.

Lemma astype_entry_cells (types : list (string * dtype)) (c c' : string * list value) :
  match dict_get types c.1 with
  | Some t => astype_column t c.1 c.2 = Ok c'.2
  | None => c'.2 = c.2
  end →
  Forall2 cell_of c.2 c'.2.
Proof.
  destruct (dict_get types c.1) as [t|].
  - intros Hcast%astype_column_Ok. eapply Forall2_impl; [exact Hcast|].
    intros v v' Hv. right. by exists t.
  - intros ->. apply Forall_Forall2_diag, Forall_forall. intros v _. by left.
Qed.

(** The row labels of [range_index n]: [n] of them, the [k]-th is the
    integer [k]. *)
Lemma length_range_index n : length (range_index n) = n.
Proof. unfold range_index. by rewrite length_fmap, length_seq. Qed.

Lemma range_index_lookup n k :
  (k < n)%nat → range_index n !! k = Some (VInt (Z.of_nat k)).
Proof.
  intros Hk. unfold range_index.
  by rewrite list_lookup_fmap, lookup_seq_lt.
Qed.

(** C1. Whenever [process_data] returns a frame for a well-formed input:
    the rows kept are exactly the rows with a geometry, in source order; the
    output has no more rows than the input; it has one row label for each
    surviving row, and the label of row [k] is the integer [k], so the rows
    are labelled 0 .. N-1; its geometry column holds the surviving
    geometries, none of them [None]; and row [k] of every output column
    comes from the [k]-th surviving source row. *)
Theorem process_data_geometry_filter gdf gdf_column data_year gda_type out :
  wf gdf →
  process_data gdf gdf_column data_year gda_type = Ok out →
  ∃ geometry kept,
    getitem gdf "geometry" = Ok geometry
    ∧ StronglySorted lt (survivors geometry)
    ∧ (∀ i, i ∈ survivors geometry ↔ ∃ g, geometry !! i = Some g ∧ g ≠ VNone)
    ∧ (length (index out) ≤ length (index gdf))%nat
    ∧ length (index out) = length (survivors geometry)
    ∧ (∀ k, (k < length (survivors geometry))%nat →
         index out !! k = Some (VInt (Z.of_nat k)))
    ∧ columns out !! 2%nat = Some ("geometry", kept)
    ∧ Forall (λ g, g ≠ VNone) kept
    ∧ (∀ k i, survivors geometry !! k = Some i → kept !! k = geometry !! i)
    ∧ Forall (λ c', ∃ c, c ∈ columns gdf
                ∧ length c'.2 = length (survivors geometry)
                ∧ ∀ k i, survivors geometry !! k = Some i →
                    ∃ v v', c.2 !! i = Some v ∧ c'.2 !! k = Some v' ∧ cell_of v v')
        (columns out).
Proof.
  intros [Hnd Hlen] Hok.
  set (N := boundary_name_column data_year gda_type).
  destruct (has_column gdf N && has_column gdf (name gdf_column)
            && has_column gdf "geometry") eqn:Hhas.
  2: { destruct (process_data_missing _ _ _ _ Hhas) as (m & Hm & _). congruence. }
  apply andb_true_iff in Hhas as [[HN Hn]%andb_true_iff Hg].
  apply has_column_getitem in HN as [cN HN].
  apply has_column_getitem in Hn as [cn Hn].
  apply has_column_getitem in Hg as [cg Hg].
  rewrite (process_data_selected _ _ _ _ _ _ _ Hnd HN Hn Hg) in Hok.
  apply astype_Ok_inv in Hok as (Hidx & _ & Hcols).
  pose proof (boundary_name_column_not_geometry data_year gda_type) as HNg.
  destruct (renamed_labels _ (name gdf_column) (rename gdf_column) HNg)
    as (_ & _ & HL3).
  unfold rename_columns in Hidx, Hcols.
  cbn [fmap list_fmap columns index fst snd] in Hidx, Hcols.
  rewrite HL3 in Hcols. clear HL3. fold N in Hcols.
  set (mask := ne_None <$> cg) in *.
  apply Forall2_cons_inv_l in Hcols as (c1 & cols1 & [_ H1] & Hcols & Hout).
  apply Forall2_cons_inv_l in Hcols as (c2 & cols2 & [_ H2] & Hcols & ->).
  apply Forall2_cons_inv_l in Hcols as (c3 & cols3 & [Hl3 H3] & Hcols & ->).
  apply Forall2_nil_inv_l in Hcols as ->.
  pose proof H3 as H3'.
  apply astype_entry_cells in H1, H2, H3'. cbn [fst snd] in H1, H2, H3, H3', Hl3.
  rewrite column_types_geometry in H3. apply astype_column_geometry in H3.
  assert (Hlens : ∀ l c, dict_get (columns gdf) l = Some c →
                         (l, c) ∈ columns gdf ∧ length c = length mask).
  { intros l c Hl%dict_get_Some_elem. split; [done|].
    unfold mask. rewrite length_fmap.
    rewrite Forall_forall in Hlen.
    pose proof (Hlen _ Hl) as Hc.
    pose proof (Hlen _ (dict_get_Some_elem _ _ _ Hg)) as Hcg.
    simpl in Hc, Hcg. congruence. }
  destruct (Hlens _ _ HN) as [HinN HlenN].
  destruct (Hlens _ _ Hn) as [Hinn Hlenn].
  destruct (Hlens _ _ Hg) as [Hing Hleng].
  assert (Hrows : length (filter_mask mask (index gdf)) = length (survivors cg)).
  { unfold survivors. apply filter_mask_length. fold mask. rewrite <- Hleng.
    rewrite Forall_forall in Hlen. symmetry. exact (Hlen _ Hing). }
  exists cg, (filter_mask mask cg). unfold getitem. rewrite Hg.
  split_and!.
  - done.
  - apply survivors_from_sorted.
  - apply survivors_spec.
  - rewrite Hidx, length_range_index.
    apply filter_mask_length_le.
  - by rewrite Hidx, length_range_index.
  - intros k Hk. rewrite Hidx. apply range_index_lookup. by rewrite Hrows.
  - rewrite Hout. cbn. destruct c3 as [l3 cells3]. simpl in *. by subst.
  - apply filter_mask_ne_None.
  - intros k i Hk. rewrite (filter_mask_lookup mask cg 0 k i Hleng Hk).
    by rewrite Nat.sub_0_r.
  - rewrite Hout.
    destruct (cast_rows mask cN c1.2 HlenN H1) as [Hl1 Hr1].
    destruct (cast_rows mask cn c2.2 Hlenn H2) as [Hl2 Hr2].
    destruct (cast_rows mask cg c3.2 Hleng H3') as [Hl3' Hr3].
    repeat constructor.
    + exists (N, cN). split_and!; done.
    + exists (name gdf_column, cn). split_and!; done.
    + exists ("geometry", cg). split_and!; done.
Qed.

Lemma astype_column_has_dtype t label cells cells' :
  astype_column t label cells = Ok cells' → Forall (has_dtype t) cells'.
Proof.
  rewrite astype_column_Ok. induction 1 as [|v v' ? ? Hv _ IH]; constructor; [|done].
  by eapply astype_cell_has_dtype.
Qed.

Lemma astype_column_total t label cells :
  Forall (λ v, is_Ok (astype_cell t v)) cells →
  ∃ cells', astype_column t label cells = Ok cells'.
Proof.
  induction 1 as [|v cells [v' Hv] _ [cells' IH]]; [by exists []|].
  exists (v' :: cells'). apply astype_column_Ok. constructor; [done|].
  by apply astype_column_Ok in IH.
Qed.

Lemma filter_mask_Forall {A} (P : A → Prop) (mask : list bool) (l : list A) :
  Forall P l → Forall P (filter_mask mask l).
Proof.
  intros Hl. revert mask. induction Hl as [|x l Hx _ IH]; intros [|[] mask];
    simpl; try constructor; auto.
Qed.

(** The surviving geometries are geometries once the cast to geometry has
    accepted them. *)
Lemma surviving_geometries label (geometry : list value) cells' :
  astype_column Geometry label (filter_mask (ne_None <$> geometry) geometry) = Ok cells' →
  Forall (λ v, ∃ g, v = VGeom g) (filter_mask (ne_None <$> geometry) geometry).
Proof.
  intros Hcast%astype_column_Ok.
  pose proof (filter_mask_ne_None geometry) as Hne.
  revert Hne. induction Hcast as [|v v' ? ? Hv _ IH]; [constructor|].
  inversion 1; subst. constructor; [|auto].
  destruct v; simplify_eq/=; eauto.
Qed.

(** C2 (as amended). For a well-formed frame and a column spec whose target
    name is neither [Location] nor [geometry], every frame [process_data]
    returns has exactly the three columns Location, the spec's target name,
    geometry, in this order: the Location cells are text, the value cells
    have the spec's type, and the geometry column is the source's geometry
    column at the surviving rows. *)
Theorem process_data_schema gdf gdf_column data_year gda_type out :
  wf gdf →
  rename gdf_column ≠ "Location" →
  rename gdf_column ≠ "geometry" →
  process_data gdf gdf_column data_year gda_type = Ok out →
  ∃ loc val geometry,
    columns out = [ ("Location", loc);
                    (rename gdf_column, val);
                    ("geometry", filter_mask (ne_None <$> geometry) geometry) ]
    ∧ Forall (has_dtype Str) loc
    ∧ Forall (has_dtype (type gdf_column)) val
    ∧ getitem gdf "geometry" = Ok geometry
    ∧ Forall (λ v, ∃ g, v = VGeom g) (filter_mask (ne_None <$> geometry) geometry).
Proof.
  intros [Hnd Hlen] Hr1 Hr2 Hok.
  set (N := boundary_name_column data_year gda_type).
  destruct (has_column gdf N && has_column gdf (name gdf_column)
            && has_column gdf "geometry") eqn:Hhas.
  2: { destruct (process_data_missing _ _ _ _ Hhas) as (m & Hm & _). congruence. }
  apply andb_true_iff in Hhas as [[HN Hn]%andb_true_iff Hg].
  apply has_column_getitem in HN as [cN HN].
  apply has_column_getitem in Hn as [cn Hn].
  apply has_column_getitem in Hg as [cg Hg].
  destruct (decide (name gdf_column = N)) as [Hn1|Hn1].
  { destruct (process_data_clash _ _ _ _ _ _ Hnd HN Hg Hr1 Hr2 (or_introl Hn1)). congruence. }
  destruct (decide (name gdf_column = "geometry")) as [Hn2|Hn2].
  { destruct (process_data_clash _ _ _ _ _ _ Hnd HN Hg Hr1 Hr2 (or_intror Hn2)). congruence. }
  rewrite (process_data_distinct _ _ _ _ _ _ _ Hnd HN Hn Hg Hr1 Hr2 Hn1 Hn2) in Hok.
  apply bind_Ok_inv in Hok as (c1 & H1 & Hok).
  apply bind_Ok_inv in Hok as (c2 & H2 & Hok).
  apply bind_Ok_inv in Hok as (c3 & H3 & [= <-]).
  exists c1, c2, cg. unfold getitem. rewrite Hg.
  pose proof (surviving_geometries _ _ _ H3) as Hgeo.
  apply astype_column_geometry in H3 as ->.
  split_and!; [done | | | done | done].
  - by eapply astype_column_has_dtype.
  - by eapply astype_column_has_dtype.
Qed.

(** The call returns for a well-formed frame that has the three source
    columns, a spec with names of its own, value cells that can be cast at
    the surviving rows, and a geometry column of geometries and [None]. *)
Lemma process_data_returns gdf gdf_column data_year gda_type cells geometry :
  wf gdf →
  has_column gdf (boundary_name_column data_year gda_type) = true →
  getitem gdf (name gdf_column) = Ok cells →
  getitem gdf "geometry" = Ok geometry →
  rename gdf_column ≠ "Location" → rename gdf_column ≠ "geometry" →
  name gdf_column ≠ boundary_name_column data_year gda_type →
  name gdf_column ≠ "geometry" →
  Forall (λ v, is_Ok (astype_cell (type gdf_column) v))
    (filter_mask (ne_None <$> geometry) cells) →
  Forall (λ v, v = VNone ∨ ∃ g, v = VGeom g) geometry →
  is_Ok (process_data gdf gdf_column data_year gda_type).
Proof.
  intros [Hnd _] [cN HN]%has_column_getitem Hn Hg Hr1 Hr2 Hn1 Hn2 Hcells Hgeo.
  unfold getitem in Hn, Hg.
  destruct (dict_get (columns gdf) (name gdf_column)) as [cn|] eqn:Hn'; [|done].
  destruct (dict_get (columns gdf) "geometry") as [cg|] eqn:Hg'; [|done].
  simplify_eq.
  rewrite (process_data_distinct _ _ _ _ _ _ _ Hnd HN Hn' Hg' Hr1 Hr2 Hn1 Hn2).
  rewrite astype_column_str. cbn [mbind result_bind].
  destruct (astype_column_total _ (rename gdf_column) _ Hcells) as [c2 ->].
  cbn [mbind result_bind].
  destruct (astype_column_total Geometry "geometry"
              (filter_mask (ne_None <$> geometry) geometry)) as [c3 ->].
  { apply filter_mask_Forall. eapply Forall_impl; [exact Hgeo|].
    intros v [->|[g ->]]; eexists; reflexivity. }
  cbn [mbind result_bind]. eexists. reflexivity.
Qed.

End Normalize.

Module Concrete.
#[local] Existing Instance unit_float.

Lemma process_data_missing_column_witness :
  ∃ missing,
    process_data Scenario.rows_as_printed Scenario.population 2021 "SA4"
      = Raise (KeyError missing)
    ∧ missing ≠ []
    ∧ Forall (λ label, (label ∉ labels Scenario.rows_as_printed)
                       ∧ label ∈ [ boundary_name_column 2021 "SA4";
                                   name Scenario.population; "geometry" ]) missing.
Proof.
  apply (process_data_missing_column Scenario.rows_as_printed Scenario.population 2021 "SA4").
  reflexivity.
Defined.

(** C3, the scenario as printed: the rows carry the boundary names under
    the label [name], the call looks for [SA4_NAME_2021] and raises. *)
Lemma scenario_A_as_printed_raises :
  process_data Scenario.rows_as_printed Scenario.population 2021 "SA4"
    = Raise (KeyError ["SA4_NAME_2021"])
  ∧ process_data Scenario.rows_as_printed Scenario.population 2021 "SA4"
    ≠ Ok Scenario.table_A.
Proof. split; [reflexivity | discriminate]. Qed.

(** Four rows labelled a, b, c, d, the second without a geometry: the call
    returns the first, third and fourth, labelled 0, 1, 2. *)
Lemma process_data_geometry_filter_witness :
  ∃ geometry kept,
    getitem Cases.rows_gap "geometry" = Ok geometry
    ∧ StronglySorted lt (survivors geometry)
    ∧ (∀ i, i ∈ survivors geometry ↔ ∃ g, geometry !! i = Some g ∧ g ≠ VNone)
    ∧ (length (index Cases.table_gap) ≤ length (index Cases.rows_gap))%nat
    ∧ length (index Cases.table_gap) = length (survivors geometry)
    ∧ (∀ k, (k < length (survivors geometry))%nat →
         index Cases.table_gap !! k = Some (VInt (Z.of_nat k)))
    ∧ columns Cases.table_gap !! 2%nat = Some ("geometry", kept)
    ∧ Forall (λ g, g ≠ VNone) kept
    ∧ (∀ k i, survivors geometry !! k = Some i → kept !! k = geometry !! i)
    ∧ Forall (λ c', ∃ c, c ∈ columns Cases.rows_gap
                ∧ length c'.2 = length (survivors geometry)
                ∧ ∀ k i, survivors geometry !! k = Some i →
                    ∃ v v', c.2 !! i = Some v ∧ c'.2 !! k = Some v' ∧ cell_of v v')
        (columns Cases.table_gap).
Proof.
  apply (process_data_geometry_filter Cases.rows_gap Scenario.population 2021 "SA4").
  - apply (bool_decide_unpack _). vm_compute. exact I.
  - reflexivity.
Defined.

Lemma process_data_schema_witness :
  ∃ loc val geometry,
    columns Scenario.table_A
      = [ ("Location", loc);
          (rename Scenario.population, val);
          ("geometry", filter_mask (ne_None <$> geometry) geometry) ]
    ∧ Forall (has_dtype Str) loc
    ∧ Forall (has_dtype (type Scenario.population)) val
    ∧ getitem Scenario.rows_A "geometry" = Ok geometry
    ∧ Forall (λ v, ∃ g, v = VGeom g) (filter_mask (ne_None <$> geometry) geometry).
Proof.
  apply (process_data_schema Scenario.rows_A Scenario.population 2021 "SA4").
  - apply (bool_decide_unpack _). vm_compute. exact I.
  - discriminate.
  - discriminate.
  - reflexivity.
Defined.

(** C2, as stated: a value spec of type int whose target name is Location.
    The frame has the three source columns and the call returns, but the
    dictionary of types holds one entry for the label Location, the value
    spec's: the boundary names are cast to integers, not to text. *)
Lemma value_spec_named_location :
  process_data Scenario.rows_postcodes Scenario.population_as_location 2021 "POA"
    = Ok {| index := [VInt 0];
            columns := [ ("Location", [VInt 4000]);
                         ("Location", [VInt 2500000]);
                         ("geometry", [VGeom Scenario.G1]) ] |}
  ∧ ¬ has_dtype Str (VInt 4000).
Proof. split; [reflexivity | intros [s Hs]; discriminate Hs]. Qed.



(** Scenario B with the boundary names under [SA4_NAME_2021]: the call
    raises the cast's [ValueError] for the column Population. *)
Example scenario_B :
  process_data Scenario.rows_B Scenario.population 2021 "SA4"
    = Raise (ValueError (Some "Population")).
Proof. reflexivity. Qed.
End Concrete.

(** ** Text *)

Lemma append_cons (c : ascii) (s t : string) : String c s +:+ t = String c (s +:+ t).
Proof. reflexivity. Qed.

Lemma append_nil_r (s : string) : s +:+ "" = s.
Proof. induction s as [|c s IH]; [done|]. by rewrite append_cons, IH. Qed.

Lemma append_assoc (s t u : string) : (s +:+ t) +:+ u = s +:+ (t +:+ u).
Proof. induction s as [|c s IH]; [done|]. by rewrite !append_cons, IH. Qed.

Lemma last_char_app (s t : string) :
  t ≠ "" → last_char (s +:+ t) = last_char t.
Proof.
  intros Ht. induction s as [|c s IH]; [done|].
  rewrite append_cons, <- IH. cbn [last_char].
  destruct (s +:+ t) eqn:Hst; [|done].
  destruct s; [by rewrite <- Hst in Ht | by rewrite append_cons in Hst].
Qed.


(** ** The figure store and the loader *)

Section Store.
Context {Figure : Type} (writable : string → bool).
Implicit Types (fs : gmap string (@document Figure)) (k : ArtifactKey).

(** The file name both functions build is the specification's
    serialization. *)
Lemma figure_filename_serialize k :
  fstring [FStr (topic k); Lit "_"; FStr (boundaryType k); Lit "_"; FInt (year k);
           Lit "_"; FStr (area k); Lit "_"; FStr (datumSpec k)]
  = serialize_spec k.
Proof.
  unfold fstring, serialize_spec. cbn [foldr format]. by rewrite append_nil_r.
Qed.


Lemma figure_path_html work_dir k :
  fstring [FStr work_dir; Lit "/figure/"; FStr (serialize_spec k); Lit ".html"]
  = figure_path_spec work_dir k "html".
Proof. reflexivity. Qed.

(** C6. The file name is the serialization
    [{topic}_{boundaryType}_{year}_{area}_{datumSpec}] of the key;
    [save_figure] with file type json writes the figure's JSON document at
    [{work_dir}/figure/<serialization>.json], [read_figure] reads that same
    path, and reads back the figure once it is written there. For the key
    of Scenario C the serialization is [G01_SA4_2021_AUST_GDA2020] and the
    path [{work_dir}/figure/G01_SA4_2021_AUST_GDA2020.json]. *)
Theorem figure_address k work_dir figure fs :
  let path := work_dir +:+ "/figure/" +:+ serialize_spec k +:+ ".json" in
  serialize_spec k
    = topic k +:+ "_" +:+ boundaryType k +:+ "_" +:+ str_of_int (year k)
      +:+ "_" +:+ area k +:+ "_" +:+ datumSpec k
  ∧ save_figure writable fs work_dir figure "json"
      (year k) (topic k) (area k) (datumSpec k) (boundaryType k)
    = (if writable path then Ok (<[path := JsonDoc figure]> fs) else Raise (OSError path))
  ∧ read_figure fs work_dir (year k) (topic k) (area k) (datumSpec k) (boundaryType k)
    = read_json fs path
  ∧ read_figure (<[path := JsonDoc figure]> fs) work_dir
      (year k) (topic k) (area k) (datumSpec k) (boundaryType k)
    = Ok figure
  ∧ serialize_spec Scenario.key_C = "G01_SA4_2021_AUST_GDA2020"
  ∧ read_figure fs work_dir 2021 "G01" "AUST" "GDA2020" "SA4"
    = read_json fs (work_dir +:+ "/figure/G01_SA4_2021_AUST_GDA2020.json").
Proof.
  intros path.
  assert (Hread : ∀ fs', read_figure fs' work_dir (year k) (topic k) (area k)
                           (datumSpec k) (boundaryType k) = read_json fs' path).
  { intros fs'. unfold read_figure. cbv zeta.
    by rewrite figure_filename_serialize. }
  split_and!.
  - reflexivity.
  - unfold save_figure. cbv zeta. rewrite figure_filename_serialize.
    change (String.eqb "json" "html") with false.
    change (String.eqb "json" "json") with true. cbv iota.
    reflexivity.
  - apply Hread.
  - rewrite Hread. unfold read_json. by rewrite lookup_insert_eq.
  - reflexivity.
  - reflexivity.
Qed.


(** C9 (as amended). With a file type other than html and json,
    [save_figure] raises nothing: it writes no file and returns. *)
Theorem save_figure_other_file_type fs work_dir figure file_type
    data_year data_topic geo_area gda_spec gda_type :
  file_type ≠ "html" → file_type ≠ "json" →
  save_figure writable fs work_dir figure file_type
    data_year data_topic geo_area gda_spec gda_type = Ok fs.
Proof.
  intros Hhtml Hjson. unfold save_figure. cbv zeta.
  destruct (String.eqb_spec file_type "html"); [done|].
  destruct (String.eqb_spec file_type "json"); done.
Qed.
End Store.

Section Loading.
Context `{PyFloat}.
Variable read_file : string → string → result DataFrame.

(** C7. [load_local_data] calls the vector-file reader with the path
    [{work_dir}/raw/Geopackage_{year}_{topic}_{area}_{datumSpec}/{topic}_{area}_{datumSpec}.gpkg]
    and the layer [{topic}_{boundaryType}_{year}_{area}], and returns what
    the reader returns. *)
Theorem load_local_data_delegates work_dir (k : ArtifactKey) :
  load_local_data read_file work_dir
    (year k) (topic k) (area k) (datumSpec k) (boundaryType k)
  = read_file
      (work_dir +:+ "/raw/"
       +:+ ("Geopackage_" +:+ str_of_int (year k) +:+ "_" +:+ topic k +:+ "_"
            +:+ area k +:+ "_" +:+ datumSpec k)
       +:+ "/"
       +:+ (topic k +:+ "_" +:+ area k +:+ "_" +:+ datumSpec k +:+ ".gpkg"))
      (topic k +:+ "_" +:+ boundaryType k +:+ "_" +:+ str_of_int (year k)
       +:+ "_" +:+ area k)
  ∧ load_local_data read_file work_dir
      (year k) (topic k) (area k) (datumSpec k) (boundaryType k)
    = read_file (source_path_spec work_dir k) (layer_spec k)
  ∧ load_local_data read_file work_dir 2021 "G01" "AUST" "GDA2020" "SA4"
    = read_file
        (work_dir +:+ "/raw/Geopackage_2021_G01_AUST_GDA2020/G01_AUST_GDA2020.gpkg")
        "G01_SA4_2021_AUST".
Proof.
  assert (Hspec : load_local_data read_file work_dir
            (year k) (topic k) (area k) (datumSpec k) (boundaryType k)
          = read_file (source_path_spec work_dir k) (layer_spec k)).
  { unfold load_local_data, source_path_spec, folder_spec, file_spec, layer_spec.
    cbv zeta. cbn [fstring foldr format]. rewrite !append_nil_r. reflexivity. }
  split_and!.
  - rewrite Hspec. reflexivity.
  - exact Hspec.
  - unfold load_local_data. cbv zeta. cbn [fstring foldr format].
    rewrite !append_nil_r. reflexivity.
Qed.

(** C10. Whatever the arguments, [load_pro] raises [NameError] for [gdf]:
    the name is neither a parameter nor bound in the module. It never
    returns a frame, or anything else. *)
Theorem load_pro_raises work_dir data_config cloud overwrite :
  load_pro work_dir data_config cloud overwrite = Raise (NameError "gdf")
  ∧ ∀ o, load_pro work_dir data_config cloud overwrite ≠ Ok o.
Proof. split; [reflexivity | discriminate]. Qed.
End Loading.

Module ConcreteStore.
Import Scenario.


(** C9, as stated: the file type pdf is neither html nor json; the call
    raises nothing and leaves the store empty. *)
Lemma save_figure_pdf_is_silent :
  save_figure always_writable empty_store "work" "map" "pdf"
    2021 "G01" "AUST" "GDA2020" "SA4" = Ok empty_store
  ∧ ¬ is_Raise (save_figure always_writable empty_store "work" "map" "pdf"
                  2021 "G01" "AUST" "GDA2020" "SA4").
Proof. split; [reflexivity | intros [e He]; discriminate He]. Qed.

Lemma save_figure_other_file_type_witness :
  save_figure always_writable empty_store "work" "map" "svg"
    2021 "G01" "AUST" "GDA2020" "SA4" = Ok empty_store.
Proof.
  apply (save_figure_other_file_type always_writable empty_store "work" "map" "svg");
    discriminate.
Defined.
End ConcreteStore.

(** * Further properties of the code *)

(** ** [process_data]: what the result depends on *)

Lemma filter_mask_length_indep {A B} (mask : list bool) (l : list A) (l' : list B) :
  length l = length l' →
  length (filter_mask mask l) = length (filter_mask mask l').
Proof.
  revert l l'. induction mask as [|b mask IH]; intros [|x l] [|x' l'] [=]; simpl;
    try done.
  destruct b; simpl; auto.
Qed.



Section NormalizeMore.
Context `{PyFloat}.
Implicit Types (gdf out : DataFrame) (gdf_column : ColumnSpec).

Lemma getitem_inv gdf label cells :
  getitem gdf label = Ok cells ↔ dict_get (columns gdf) label = Some cells.
Proof.
  unfold getitem. destruct (dict_get _ _); split; intros; by simplify_eq.
Qed.

Lemma getitem_eq_dict_get gdf gdf' label :
  getitem gdf label = getitem gdf' label →
  dict_get (columns gdf) label = dict_get (columns gdf') label.
Proof.
  unfold getitem.
  destruct (dict_get (columns gdf) label), (dict_get (columns gdf') label);
    intros; by simplify_eq.
Qed.

(** Without a geometry column the call ends at its first statement. *)
Lemma process_data_no_geometry_column gdf gdf_column data_year gda_type :
  dict_get (columns gdf) "geometry" = None →
  process_data gdf gdf_column data_year gda_type = Raise (KeyError ["geometry"]).
Proof. intros Hg. unfold process_data, getitem. by rewrite Hg. Qed.

(** With a geometry column, the labels reported missing are the requested
    labels the frame does not have, in the order requested. *)
Lemma process_data_missing_exact gdf gdf_column data_year gda_type cg :
  dict_get (columns gdf) "geometry" = Some cg →
  has_column gdf (boundary_name_column data_year gda_type)
    && has_column gdf (name gdf_column) = false →
  process_data gdf gdf_column data_year gda_type =
    Raise (KeyError (List.filter (λ n, negb (has_column gdf n))
                       [ boundary_name_column data_year gda_type;
                         name gdf_column; "geometry" ])).
Proof.
  intros Hg Hmiss. unfold process_data, getitem. rewrite Hg.
  cbn [mbind result_bind]. cbv zeta. unfold getitem_list.
  set (gdf1 := reset_index _).
  assert (Hsame : ∀ l, has_column gdf1 l = has_column gdf l).
  { intros l. unfold has_column, labels, gdf1. simpl.
    by rewrite <- list_fmap_compose. }
  cbn [fmap list_fmap name List.filter].
  change (fstring [FStr gda_type; Lit "_NAME_"; FInt data_year])
    with (boundary_name_column data_year gda_type).
  rewrite !Hsame.
  apply andb_false_iff in Hmiss.
  destruct (has_column gdf (boundary_name_column data_year gda_type)),
    (has_column gdf (name gdf_column)), (has_column gdf "geometry");
    cbn [negb mbind result_bind]; try done; by destruct Hmiss.
Qed.

(** X1. The result depends on the frame only through the number of its
    rows and its three source columns: the row labels and every other
    column are ignored. *)
Theorem process_data_three_columns gdf gdf' gdf_column data_year gda_type :
  NoDup (labels gdf) → NoDup (labels gdf') →
  length (index gdf) = length (index gdf') →
  getitem gdf (boundary_name_column data_year gda_type)
    = getitem gdf' (boundary_name_column data_year gda_type) →
  getitem gdf (name gdf_column) = getitem gdf' (name gdf_column) →
  getitem gdf "geometry" = getitem gdf' "geometry" →
  process_data gdf gdf_column data_year gda_type
    = process_data gdf' gdf_column data_year gda_type.
Proof.
  intros Hnd Hnd' Hlen HN%getitem_eq_dict_get Hn%getitem_eq_dict_get
    Hg%getitem_eq_dict_get.
  set (N := boundary_name_column data_year gda_type) in *.
  destruct (dict_get (columns gdf) "geometry") as [cg|] eqn:Hcg.
  2: { by rewrite !process_data_no_geometry_column. }
  assert (Hhas : ∀ l, dict_get (columns gdf) l = dict_get (columns gdf') l →
                      has_column gdf l = has_column gdf' l).
  { intros l Hl. destruct (has_column gdf' l) eqn:Hh'.
    - apply has_column_getitem. apply has_column_getitem in Hh'. by rewrite Hl.
    - apply has_column_false. apply has_column_false in Hh'. by rewrite Hl. }
  destruct (has_column gdf N && has_column gdf (name gdf_column)) eqn:Hboth.
  - apply andb_true_iff in Hboth as [[cN HcN]%has_column_getitem [cn Hcn]%has_column_getitem].
    rewrite (process_data_selected gdf _ _ _ _ _ _ Hnd HcN Hcn Hcg).
    rewrite HN in HcN. rewrite Hn in Hcn. symmetry in Hg.
    rewrite (process_data_selected gdf' _ _ _ _ _ _ Hnd' HcN Hcn Hg).
    by rewrite (filter_mask_length_indep _ (index gdf) (index gdf') Hlen).
  - rewrite (process_data_missing_exact gdf _ _ _ cg Hcg Hboth).
    rewrite (Hhas _ HN), (Hhas _ Hn) in Hboth. symmetry in Hg.
    rewrite (process_data_missing_exact gdf' _ _ _ cg Hg Hboth).
    cbn [List.filter]. fold N.
    rewrite (Hhas N HN), (Hhas _ Hn), (Hhas "geometry"); [done|].
    by rewrite Hcg.
Qed.





(** X5. A value spec that reads the boundary-name column again, under a
    target name of its own, cannot be served: both copies of the column are
    renamed to the spec's target name, no column is called Location, and
    the cast raises [KeyError] for that label. *)
Theorem process_data_boundary_names_as_value gdf gdf_column data_year gda_type :
  NoDup (labels gdf) →
  has_column gdf (boundary_name_column data_year gda_type) = true →
  has_column gdf "geometry" = true →
  name gdf_column = boundary_name_column data_year gda_type →
  rename gdf_column ≠ "Location" → rename gdf_column ≠ "geometry" →
  process_data gdf gdf_column data_year gda_type = Raise (KeyError ["Location"]).
Proof.
  intros Hnd [cN HN]%has_column_getitem [cg Hg]%has_column_getitem Hn Hr1 Hr2.
  pose proof (boundary_name_column_not_geometry data_year gda_type) as HNg.
  assert (Hcn : dict_get (columns gdf) (name gdf_column) = Some cN) by by rewrite Hn.
  rewrite (process_data_selected _ _ _ _ _ _ _ Hnd HN Hcn Hg).
  destruct (renamed_labels _ (name gdf_column) (rename gdf_column) HNg)
    as (HL1 & HL2 & HL3).
  unfold rename_columns. cbn [fmap list_fmap columns index fst snd].
  rewrite HL1, HL2, HL3. clear HL1 HL2 HL3.
  rewrite column_types_distinct by done.
  unfold astype. cbn [fmap list_fmap fst List.filter].
  set (df := {| index := _ |}).
  assert (Hno : has_column df "Location" = false).
  { apply not_true_iff_false. rewrite has_column_true. unfold df, labels.
    cbn [columns fmap list_fmap fst]. rewrite Hn, String.eqb_refl.
    string_cases. not_in_list. }
  by rewrite Hno.
Qed.
End NormalizeMore.

(** ** Integers printed and read back *)

Module IntLiteralFacts.
Import IntLiteral.

#[local] Abbreviation chars d := (list_ascii_of_string (NilEmpty.string_of_uint d)).

Ltac digit_step IH :=
  cbn [NilEmpty.string_of_uint list_ascii_of_string digits];
  match goal with
  | |- context [digit ?c] =>
      let r := eval vm_compute in (digit c) in
      change (digit c) with r; cbv iota beta
  end.

Lemma digits_of_uint_acc d acc :
  digits (Z.pos acc) (chars d) = Some (Z.pos (Pos.of_uint_acc d acc)).
Proof.
  revert acc. induction d as [|d IH|d IH|d IH|d IH|d IH|d IH|d IH|d IH|d IH|d IH];
    intros acc; [reflexivity|..]; digit_step IH; cbn [Pos.of_uint_acc];
    rewrite <- IH; f_equal; lia.
Qed.

Lemma digits_of_uint d : digits 0 (chars d) = Some (Z.of_N (Pos.of_uint d)).
Proof.
  induction d as [|d IH|d IH|d IH|d IH|d IH|d IH|d IH|d IH|d IH|d IH];
    [reflexivity|..]; digit_step IH; cbn [Pos.of_uint Z.of_N];
    [exact IH | rewrite <- digits_of_uint_acc; f_equal; lia ..].
Qed.

Lemma unsigned_of_uint d :
  d ≠ Decimal.Nil → unsigned (chars d) = Some (Z.of_uint d).
Proof.
  unfold Z.of_uint.
  destruct d; [done|..]; intros _;
    cbn [NilEmpty.string_of_uint list_ascii_of_string unsigned];
    match goal with
    | |- context [digit ?c] =>
        let r := eval vm_compute in (digit c) in
        change (digit c) with r; cbv iota beta
    end; cbn [Pos.of_uint Z.of_N];
    [apply digits_of_uint | apply digits_of_uint_acc ..].
Qed.

Lemma lstrip_id cs : Forall (λ c, is_space c = false) cs → lstrip cs = cs.
Proof. destruct 1 as [|c cs Hc _]; simpl; [done | by rewrite Hc]. Qed.

Lemma strip_id cs : Forall (λ c, is_space c = false) cs → strip cs = cs.
Proof.
  intros Hcs. unfold strip. rewrite (lstrip_id _ Hcs).
  rewrite lstrip_id; [apply rev_involutive|].
  apply Forall_forall. intros c Hc%list_elem_of_In%in_rev%list_elem_of_In.
  by eapply Forall_forall in Hcs.
Qed.

(** The characters of a printed number are digits. *)
Lemma chars_digits d : Forall (λ c, is_Some (digit c)) (chars d).
Proof.
  induction d; cbn [NilEmpty.string_of_uint list_ascii_of_string];
    constructor; try done; vm_compute; eauto.
Qed.

Lemma digit_not_space c : is_Some (digit c) → is_space c = false.
Proof.
  unfold digit, is_space. intros [z Hz].
  destruct (_ && _)%bool eqn:Hrange in Hz; [|done].
  apply andb_true_iff in Hrange as [?%Nat.leb_le ?%Nat.leb_le].
  apply orb_false_iff. split.
  - apply andb_false_iff. right. apply Nat.leb_gt. lia.
  - apply Nat.eqb_neq. lia.
Qed.


Lemma digit_not_sign c :
  is_Some (digit c) → Ascii.eqb c "-" = false ∧ Ascii.eqb c "+" = false.
Proof.
  unfold digit. intros [z Hz].
  destruct (_ && _)%bool eqn:Hrange in Hz; [|done].
  apply andb_true_iff in Hrange as [?%Nat.leb_le ?%Nat.leb_le].
  split; apply Ascii.eqb_neq; intros ->; vm_compute in *; lia.
Qed.

(** What [int] reads and what it refuses: white space around the number,
    the separators 28 to 31 (which are no white space to [int]), one sign,
    single underscores between digits, leading zeros. *)
Example parse_cases :
  parse " 7 " = Some 7
  ∧ parse (String "009" (String "055" (String "010" ""))) = Some 7
  ∧ parse (String "011" (String "055" (String "012" (String "013" "")))) = Some 7
  ∧ parse (String "028" "7") = None
  ∧ parse (String "055" (String "031" "")) = None
  ∧ parse "-12" = Some (-12)
  ∧ parse "+12" = Some 12
  ∧ parse "+-12" = None
  ∧ parse "- 12" = None
  ∧ parse "1_000" = Some 1000
  ∧ parse "1__000" = None
  ∧ parse "_1" = None
  ∧ parse "1_" = None
  ∧ parse "007" = Some 7
  ∧ parse "" = None
  ∧ parse "N/A" = None
  ∧ parse "1.0" = None.
Proof. repeat split; reflexivity. Qed.

(** [int(str(n)) == n] *)
Lemma parse_str_of_int z : parse (str_of_int z) = Some z.
Proof.
  destruct z as [|p|p]; [reflexivity|..]; unfold str_of_int, parse;
    cbn [Z.to_int NilZero.string_of_int NilZero.string_of_uint];
    pose proof (Unsigned.to_uint_nonnil p) as Hnil;
    pose proof (chars_digits (Pos.to_uint p)) as Hdigits;
    pose proof (unsigned_of_uint _ Hnil) as Hval;
    unfold Z.of_uint in Hval; rewrite Unsigned.of_to in Hval.
  - assert (Hstr : NilZero.string_of_uint (Pos.to_uint p)
                   = NilEmpty.string_of_uint (Pos.to_uint p))
      by (by destruct (Pos.to_uint p)).
    cbn [NilZero.string_of_uint] in Hstr. rewrite Hstr.
    rewrite strip_id.
    2: { eapply Forall_impl; [exact Hdigits|]. apply digit_not_space. }
    destruct (chars (Pos.to_uint p)) as [|c cs] eqn:Hcs; [done|].
    apply Forall_cons in Hdigits as [[-> ->]%digit_not_sign _]. exact Hval.
  - assert (Hstr : NilZero.string_of_uint (Pos.to_uint p)
                   = NilEmpty.string_of_uint (Pos.to_uint p))
      by (by destruct (Pos.to_uint p)).
    cbn [NilZero.string_of_uint] in Hstr. rewrite Hstr.
    cbn [list_ascii_of_string].
    rewrite strip_id.
    2: { constructor; [reflexivity|].
         eapply Forall_impl; [exact Hdigits|]. apply digit_not_space. }
    change (Ascii.eqb "-" "-") with true. cbv iota.
    rewrite Hval. reflexivity.
Qed.







End IntLiteralFacts.


Section NormalizeIntegers.
Context `{PyFloat}.
Implicit Types (gdf out : DataFrame) (gdf_column : ColumnSpec).





End NormalizeIntegers.

(** ** [create_figure] *)

Lemma dict_get_drop_label {V} (cols : list (string * V)) label k :
  dict_get (List.filter (λ c, negb (String.eqb c.1 label)) cols) k
  = if String.eqb k label then None else dict_get cols k.
Proof.
  induction cols as [|[l0 c0] cols IH]; cbn [List.filter dict_get fst].
  - by destruct (String.eqb k label).
  - destruct (String.eqb_spec l0 label) as [Heq|Hne]; cbn [negb dict_get fst].
    + rewrite IH. destruct (String.eqb_spec k label) as [Hk|Hk]; [done|].
      destruct (String.eqb_spec l0 k); [congruence | done].
    + rewrite IH. destruct (String.eqb_spec l0 k) as [Hk|Hk]; [|done].
      destruct (String.eqb_spec k label); [congruence | done].
Qed.

Section Figures.
Context `{PyFloat} {GeoJson : Type}.
Variable geo_interface : DataFrame → result GeoJson.
Implicit Types (gdf out : DataFrame) (gdf_column : ColumnSpec).

(** X8. For a frame with distinct labels, [create_figure] returns a figure
    exactly when the frame has a Location column, the frame re-indexed by it
    has a GeoJSON mapping, and the spec's target name is a column other than
    Location: once Location is the index it is no longer a column, so a
    value column called Location is never found. *)
Theorem create_figure_returns gdf gdf_column :
  NoDup (labels gdf) →
  is_Ok (create_figure geo_interface gdf gdf_column) ↔
  ∃ figure_df,
    set_index gdf "Location" = Ok figure_df
    ∧ is_Ok (geo_interface figure_df)
    ∧ rename gdf_column ≠ "Location"
    ∧ has_column gdf (rename gdf_column) = true.
Proof.
  intros _. unfold create_figure. cbv zeta. split.
  - intros [fig Hfig].
    apply bind_Ok_inv in Hfig as (figure_df & Hset & Hfig).
    apply bind_Ok_inv in Hfig as (gj & Hgj & Hfig).
    apply bind_Ok_inv in Hfig as (z & Hz & _).
    exists figure_df. split_and!; [done | by exists gj | |].
    + intros Hr. unfold set_index in Hset.
      apply bind_Ok_inv in Hset as (cells & _ & [= <-]).
      apply getitem_inv in Hz. cbn [columns] in Hz.
      rewrite dict_get_drop_label, Hr, String.eqb_refl in Hz. done.
    + unfold set_index in Hset.
      apply bind_Ok_inv in Hset as (cells & _ & [= <-]).
      apply getitem_inv in Hz. cbn [columns] in Hz.
      rewrite dict_get_drop_label in Hz.
      destruct (String.eqb _ "Location"); [done|].
      apply has_column_getitem. eauto.
  - intros (figure_df & Hset & [gj Hgj] & Hr & [z Hz]%has_column_getitem).
    rewrite Hset. cbn [mbind result_bind]. rewrite Hgj. cbn [mbind result_bind].
    unfold set_index in Hset.
    apply bind_Ok_inv in Hset as (cells & _ & [= <-]).
    assert (Hget : getitem {| index := cells;
                              columns := List.filter
                                (λ c, negb (String.eqb c.1 "Location")) (columns gdf) |}
                     (rename gdf_column) = Ok z).
    { apply getitem_inv. cbn [columns]. rewrite dict_get_drop_label.
      by destruct (String.eqb_spec (rename gdf_column) "Location"). }
    rewrite Hget. cbn [mbind result_bind]. eexists. reflexivity.
Qed.

(** The table [process_data] returns for a spec with names of its own, and
    what it was cast from. *)
Lemma process_data_distinct_inv gdf gdf_column data_year gda_type out :
  wf gdf →
  rename gdf_column ≠ "Location" → rename gdf_column ≠ "geometry" →
  process_data gdf gdf_column data_year gda_type = Ok out →
  ∃ loc val geo,
    out = {| index := index out;
             columns := [ ("Location", loc); (rename gdf_column, val); ("geometry", geo) ] |}
    ∧ length loc = length (index out)
    ∧ length val = length (index out).
Proof.
  intros [Hnd Hlen] Hr1 Hr2 Hok.
  set (N := boundary_name_column data_year gda_type).
  destruct (has_column gdf N && has_column gdf (name gdf_column)
            && has_column gdf "geometry") eqn:Hhas.
  2: { destruct (process_data_missing _ _ _ _ Hhas) as (m & Hm & _). congruence. }
  apply andb_true_iff in Hhas as [[HN Hn]%andb_true_iff Hg].
  apply has_column_getitem in HN as [cN HN].
  apply has_column_getitem in Hn as [cn Hn].
  apply has_column_getitem in Hg as [cg Hg].
  destruct (decide (name gdf_column = N)) as [Hn1|Hn1].
  { destruct (process_data_clash _ _ _ _ _ _ Hnd HN Hg Hr1 Hr2 (or_introl Hn1)). congruence. }
  destruct (decide (name gdf_column = "geometry")) as [Hn2|Hn2].
  { destruct (process_data_clash _ _ _ _ _ _ Hnd HN Hg Hr1 Hr2 (or_intror Hn2)). congruence. }
  rewrite (process_data_distinct _ _ _ _ _ _ _ Hnd HN Hn Hg Hr1 Hr2 Hn1 Hn2) in Hok.
  apply bind_Ok_inv in Hok as (c1 & H1 & Hok).
  apply bind_Ok_inv in Hok as (c2 & H2 & Hok).
  apply bind_Ok_inv in Hok as (c3 & H3 & [= <-]).
  exists c1, c2, c3. cbn [index columns]. split; [done|].
  apply astype_column_Ok, Forall2_length in H1, H2.
  rewrite Forall_forall in Hlen.
  pose proof (Hlen _ (dict_get_Some_elem _ _ _ HN)) as HlN.
  pose proof (Hlen _ (dict_get_Some_elem _ _ _ Hn)) as Hln.
  cbn [snd] in HlN, Hln.
  unfold range_index. rewrite length_fmap, length_seq, <- H1, <- H2.
  split; apply filter_mask_length_indep; congruence.
Qed.

(** X9. The pipeline composes: on a table returned by [process_data] for
    a spec with names of its own, [create_figure] raises no [KeyError]. It
    fails only if the GeoJSON mapping does, and otherwise returns a figure
    with one trace, whose locations are the table's Location cells and
    whose values are its value cells, one of each per row. *)
Theorem create_figure_after_process_data gdf gdf_column data_year gda_type out :
  wf gdf →
  rename gdf_column ≠ "Location" → rename gdf_column ≠ "geometry" →
  process_data gdf gdf_column data_year gda_type = Ok out →
  ∃ loc val geo,
    columns out = [ ("Location", loc); (rename gdf_column, val); ("geometry", geo) ]
    ∧ length loc = length (index out)
    ∧ length val = length (index out)
    ∧ match geo_interface {| index := loc;
                             columns := [ (rename gdf_column, val); ("geometry", geo) ] |} with
      | Ok mapping =>
          ∃ fig trace,
            create_figure geo_interface out gdf_column = Ok fig
            ∧ figure_data fig = [trace]
            ∧ trace_geojson trace = mapping
            ∧ trace_locations trace = loc
            ∧ trace_z trace = val
      | Raise e => create_figure geo_interface out gdf_column = Raise e
      end.
Proof.
  intros Hwf Hr1 Hr2 Hok.
  destruct (process_data_distinct_inv _ _ _ _ _ Hwf Hr1 Hr2 Hok)
    as (loc & val & geo & Hout & Hl1 & Hl2).
  exists loc, val, geo. rewrite Hout at 1. cbn [columns].
  split_and!; [done | done | done |].
  assert (Hset : set_index out "Location"
                 = Ok {| index := loc;
                         columns := [ (rename gdf_column, val); ("geometry", geo) ] |}).
  { rewrite Hout. unfold set_index, getitem.
    cbn [columns dict_get List.filter fst]. rewrite String.eqb_refl.
    cbn [mbind result_bind negb].
    destruct (String.eqb_spec (rename gdf_column) "Location"); [done|].
    destruct (String.eqb_spec "geometry" "Location"); [done|]. reflexivity. }
  unfold create_figure. cbv zeta. rewrite Hset. cbn [mbind result_bind].
  destruct (geo_interface _) as [mapping|e]; cbn [mbind result_bind]; [|done].
  unfold getitem. cbn [columns dict_get fst]. rewrite String.eqb_refl.
  cbn [mbind result_bind]. do 2 eexists. split_and!; reflexivity.
Qed.
End Figures.

(** ** File names and paths *)

Lemma has_underscore_cons c s :
  has_underscore (String c s) = Ascii.eqb "_" c || has_underscore s.
Proof. reflexivity. Qed.

(** Joining with an underscore can be undone when the first part has
    none. *)
Lemma join_inj (a a' r r' : string) :
  has_underscore a = false → has_underscore a' = false →
  a +:+ "_" +:+ r = a' +:+ "_" +:+ r' → a = a' ∧ r = r'.
Proof.
  revert a'. induction a as [|c a IH]; intros [|c' a'] Ha Ha' Heq.
  - change (String "_" r = String "_" r') in Heq. by injection Heq.
  - rewrite has_underscore_cons in Ha'. apply orb_false_iff in Ha' as [Hc' _].
    change (String "_" r = String c' (a' +:+ "_" +:+ r')) in Heq.
    injection Heq as <- _. done.
  - rewrite has_underscore_cons in Ha. apply orb_false_iff in Ha as [Hc _].
    change (String c (a +:+ "_" +:+ r) = String "_" r') in Heq.
    injection Heq as -> _. done.
  - rewrite has_underscore_cons in Ha, Ha'.
    apply orb_false_iff in Ha as [_ Ha]. apply orb_false_iff in Ha' as [_ Ha'].
    rewrite !append_cons in Heq. injection Heq as -> Heq.
    destruct (IH a' Ha Ha' Heq) as [-> ->]. done.
Qed.

Lemma length_append (s t : string) :
  String.length (s +:+ t) = (String.length s + String.length t)%nat.
Proof. induction s as [|c s IH]; [done|]. rewrite append_cons. simpl. by rewrite IH. Qed.

Lemma append_inj_l (s s' t : string) : s +:+ t = s' +:+ t → s = s'.
Proof.
  revert s'. induction s as [|c s IH]; intros [|c' s'] Heq.
  - done.
  - apply (f_equal String.length) in Heq.
    rewrite !length_append in Heq. simpl in Heq. lia.
  - apply (f_equal String.length) in Heq.
    rewrite !length_append in Heq. simpl in Heq. lia.
  - rewrite !append_cons in Heq. injection Heq as -> Heq. by rewrite (IH s' Heq).
Qed.

Lemma str_of_int_inj z z' : str_of_int z = str_of_int z' → z = z'.
Proof.
  intros Heq. apply (f_equal IntLiteral.parse) in Heq.
  rewrite !IntLiteralFacts.parse_str_of_int in Heq. by injection Heq.
Qed.

Lemma uint_chars_no_underscore d :
  has_underscore (NilEmpty.string_of_uint d) = false.
Proof.
  induction d; cbn [NilEmpty.string_of_uint]; [done|..];
    rewrite has_underscore_cons, IHd; reflexivity.
Qed.

Lemma str_of_int_no_underscore z : has_underscore (str_of_int z) = false.
Proof.
  unfold str_of_int.
  assert (Hu : ∀ d, has_underscore (NilZero.string_of_uint d) = false).
  { intros d. destruct d; [done|..]; apply uint_chars_no_underscore. }
  destruct z; cbn [Z.to_int NilZero.string_of_int]; [done | apply Hu |].
  rewrite has_underscore_cons, Hu. reflexivity.
Qed.

(** The file name determines the five parameters when topic, boundary type
    and area hold no underscore. *)
Lemma filename_inj y t a s ty y' t' a' s' ty' :
  has_underscore t = false → has_underscore ty = false → has_underscore a = false →
  has_underscore t' = false → has_underscore ty' = false → has_underscore a' = false →
  fstring [FStr t; Lit "_"; FStr ty; Lit "_"; FInt y; Lit "_"; FStr a; Lit "_"; FStr s]
  = fstring [FStr t'; Lit "_"; FStr ty'; Lit "_"; FInt y'; Lit "_"; FStr a'; Lit "_"; FStr s'] →
  y = y' ∧ t = t' ∧ a = a' ∧ s = s' ∧ ty = ty'.
Proof.
  intros Ht Hty Ha Ht' Hty' Ha'. cbn [fstring foldr format]. rewrite !append_nil_r.
  intros (-> & Heq)%join_inj; [|done..].
  apply join_inj in Heq as (-> & Heq); [|done..].
  apply join_inj in Heq as (Hy%str_of_int_inj & Heq);
    [|apply str_of_int_no_underscore..].
  apply join_inj in Heq as (-> & ->); [|done..].
  done.
Qed.

Lemma append_nonempty_r (s t : string) : t ≠ "" → s +:+ t ≠ "".
Proof. intros Ht. destruct s; [done|]. by rewrite append_cons. Qed.

(** A path ends as its extension does. *)
Lemma last_char_path (work_dir filename ext : string) :
  ext ≠ "" →
  last_char (fstring [FStr work_dir; Lit "/figure/"; FStr filename; Lit ext])
  = last_char ext.
Proof.
  intros Hext. cbn [fstring foldr format]. rewrite append_nil_r.
  rewrite !last_char_app; auto using append_nonempty_r.
Qed.

Lemma Ok_inj {A} (a b : A) : Ok a = Ok b → a = b.
Proof.
  intros Heq.
  exact (f_equal (λ r, match r with Ok x => x | Raise _ => a end) Heq).
Qed.

Section StoreMore.
Context {Figure : Type} (writable : string → bool).
Implicit Types (fs : gmap string (@document Figure)).

#[local] Abbreviation json_path work_dir y t a s ty :=
  (fstring [FStr work_dir; Lit "/figure/";
            FStr (fstring [FStr t; Lit "_"; FStr ty; Lit "_"; FInt y;
                           Lit "_"; FStr a; Lit "_"; FStr s]);
            Lit ".json"]).

#[local] Abbreviation html_path work_dir y t a s ty :=
  (fstring [FStr work_dir; Lit "/figure/";
            FStr (fstring [FStr t; Lit "_"; FStr ty; Lit "_"; FInt y;
                           Lit "_"; FStr a; Lit "_"; FStr s]);
            Lit ".html"]).

(** What a call that returns has done to the store. *)
Lemma save_figure_Ok_inv fs work_dir figure file_type y t a s ty fs' :
  save_figure writable fs work_dir figure file_type y t a s ty = Ok fs' →
  (file_type = "html" ∧ fs' = <[html_path work_dir y t a s ty := HtmlDoc figure]> fs)
  ∨ (file_type = "json" ∧ fs' = <[json_path work_dir y t a s ty := JsonDoc figure]> fs)
  ∨ (file_type ≠ "html" ∧ file_type ≠ "json" ∧ fs' = fs).
Proof.
  unfold save_figure, write_html, write_json. cbv zeta.
  destruct (String.eqb_spec file_type "html") as [->|Hh].
  { destruct (writable _); [|done]. intros <-%Ok_inj. by left. }
  destruct (String.eqb_spec file_type "json") as [->|Hj].
  { destruct (writable _); [|done]. intros <-%Ok_inj. right. by left. }
  intros <-%Ok_inj. right. by right.
Qed.

Lemma html_path_not_json_path work_dir y t a s ty work_dir' y' t' a' s' ty' :
  html_path work_dir y t a s ty ≠ json_path work_dir' y' t' a' s' ty'.
Proof.
  intros Heq. apply (f_equal last_char) in Heq.
  rewrite !last_char_path in Heq by discriminate. discriminate.
Qed.

Lemma json_path_inj work_dir y t a s ty y' t' a' s' ty' :
  has_underscore t = false → has_underscore ty = false → has_underscore a = false →
  has_underscore t' = false → has_underscore ty' = false → has_underscore a' = false →
  json_path work_dir y t a s ty = json_path work_dir y' t' a' s' ty' →
  y = y' ∧ t = t' ∧ a = a' ∧ s = s' ∧ ty = ty'.
Proof.
  intros Ht Hty Ha Ht' Hty' Ha' Heq.
  apply (filename_inj y t a s ty y' t' a' s' ty'); try done.
  cbn [fstring foldr format] in Heq.
  apply String.app_inj, String.app_inj in Heq.
  apply append_inj_l in Heq. cbn [fstring foldr format]. exact Heq.
Qed.

(** X10. The path text [read_figure] asks for determines the five
    parameters, provided topic, boundary type and area hold no underscore:
    in an empty store the call raises [FileNotFoundError] for its path, and
    under one work directory two calls that raise it for the same path have
    the same parameters. (The paths are compared as texts; whether two
    different texts name one file is the file system's business.) *)
Theorem read_figure_path_determines_parameters work_dir y t a s ty y' t' a' s' ty' :
  has_underscore t = false → has_underscore ty = false → has_underscore a = false →
  has_underscore t' = false → has_underscore ty' = false → has_underscore a' = false →
  read_figure (Figure := Figure) ∅ work_dir y t a s ty
    = read_figure ∅ work_dir y' t' a' s' ty' →
  read_figure (Figure := Figure) ∅ work_dir y t a s ty
    = Raise (FileNotFoundError (json_path work_dir y t a s ty))
  ∧ (y, t, a, s, ty) = (y', t', a', s', ty').
Proof.
  intros Ht Hty Ha Ht' Hty' Ha'.
  unfold read_figure, read_json. cbv zeta. rewrite !lookup_empty.
  intros [= Heq]. split; [done|].
  apply json_path_inj in Heq as (-> & -> & -> & -> & ->); done.
Qed.

(** X11. The file name is not one-to-one: an underscore moved from the
    boundary type into the topic gives the same file, so the figure saved
    for one set of parameters is the one read for the other. *)
Theorem save_figure_name_collision fs work_dir figure y (a b c : string) area spec fs' :
  save_figure writable fs work_dir figure "json" y a area spec (b +:+ "_" +:+ c) = Ok fs' →
  read_figure fs' work_dir y (a +:+ "_" +:+ b) area spec c = Ok figure.
Proof.
  intros Hsave.
  apply save_figure_Ok_inv in Hsave as [[Hft _]|[[_ ->]|(_ & Hft & _)]];
    [discriminate Hft | | done].
  unfold read_figure, read_json. cbv zeta.
  assert (Hname :
    fstring [FStr (a +:+ "_" +:+ b); Lit "_"; FStr c; Lit "_"; FInt y;
             Lit "_"; FStr area; Lit "_"; FStr spec]
    = fstring [FStr a; Lit "_"; FStr (b +:+ "_" +:+ c); Lit "_"; FInt y;
               Lit "_"; FStr area; Lit "_"; FStr spec]).
  { cbn [fstring foldr format]. by rewrite !append_assoc. }
  rewrite Hname. by rewrite lookup_insert_eq.
Qed.

(** X12. Round trip, and no overwrite guard: after a json save that
    returns, [read_figure] with the same parameters returns the figure just
    saved, whatever the store held at that path before. *)
Theorem save_figure_read_figure fs work_dir figure y t a s ty fs' :
  save_figure writable fs work_dir figure "json" y t a s ty = Ok fs' →
  read_figure fs' work_dir y t a s ty = Ok figure.
Proof.
  intros Hsave.
  apply save_figure_Ok_inv in Hsave as [[Hft _]|[[_ ->]|(_ & Hft & _)]];
    [discriminate Hft | | done].
  unfold read_figure, read_json. cbv zeta. by rewrite lookup_insert_eq.
Qed.

Lemma written_by_mono reqs reqs' fs :
  reqs ⊆ reqs' → written_by reqs fs → written_by reqs' fs.
Proof.
  intros Hsub Hw path doc Hdoc. specialize (Hw path doc Hdoc).
  destruct doc as [figure|figure]; [|done].
  destruct Hw as (r & Hr & Hrest). exists r. split; [by apply Hsub | done].
Qed.

Lemma run_saves_written_by reqs done_reqs fs :
  written_by done_reqs fs →
  written_by (done_reqs ++ reqs) (run_saves writable reqs fs).
Proof.
  revert done_reqs fs. induction reqs as [|r reqs IH]; intros done_reqs fs Hw.
  - by rewrite app_nil_r.
  - cbn [run_saves].
    replace (done_reqs ++ r :: reqs)%list with ((done_reqs ++ [r]) ++ reqs)%list
      by by rewrite <- app_assoc.
    assert (Hw' : written_by (done_reqs ++ [r]) fs).
    { eapply written_by_mono; [|exact Hw].
      intros x Hx. apply elem_of_app. by left. }
    destruct (save_request writable fs r) as [fs'|e] eqn:Hsave; [|by apply IH].
    apply IH. unfold save_request in Hsave.
    apply save_figure_Ok_inv in Hsave as [[_ ->]|[[Hjson ->]|(_ & _ & ->)]]; [| |done].
    + intros path doc. rewrite lookup_insert.
      case_decide as Hpath; [|by apply Hw'].
      intros [= <-]. subst path. by rewrite last_char_path.
    + intros path doc. rewrite lookup_insert.
      case_decide as Hpath; [|by apply Hw'].
      intros [= <-]. exists r. split_and!; [|done..].
      apply elem_of_app. right. left.
Qed.

(** X13. In a store that only [save_figure] calls have written, starting
    from an empty one, a figure that [read_figure] returns is the figure of
    one of the json calls: it never returns a figure that was not saved, nor
    anything for an html call. *)
Theorem read_figure_after_saves (reqs : list (@SaveRequest Figure)) work_dir y t a s ty
    figure :
  read_figure (run_saves writable reqs ∅) work_dir y t a s ty = Ok figure →
  ∃ r, r ∈ reqs ∧ req_file_type r = "json" ∧ req_figure r = figure.
Proof.
  assert (Hw : written_by reqs (run_saves writable reqs ∅)).
  { apply (run_saves_written_by reqs [] ∅). intros path doc. by rewrite lookup_empty. }
  unfold read_figure, read_json. cbv zeta.
  destruct (_ !! _) as [[figure'|figure']|] eqn:Hdoc; [|done..].
  intros [= ->].
  destruct (Hw _ _ Hdoc) as (r & Hr & Hjson & Hfig & _). eauto.
Qed.
End StoreMore.

(** ** [load_raw] *)

Section LoadRawFacts.
Context `{PyFloat}.
Variable read_file : string → string → result DataFrame.
Context {Client Container Pager : Type}.
Variable from_connection_string : fpart → result Client.
Variable get_container_client : Client → string → Container.
Variable list_blobs : Container → Pager.
Variable blob_names : Pager → list string * option exn.

#[local] Abbreviation load_raw' :=
  (load_raw read_file from_connection_string get_container_client list_blobs blob_names).

(** X14. In local mode the five keys are read from the dictionary in the
    order of the call, before anything else happens: the first one that is
    absent ends the call with [KeyError] for that key, nothing is printed and
    the file reader plays no part. *)
Theorem load_raw_first_missing_key work_dir (data_config : gmap string fpart)
    overwrite (before : list string) key (after : list string) :
  ["data_year"; "data_topic"; "geo_area"; "gda_spec"; "gda_type"]
    = (before ++ key :: after)%list →
  Forall (λ k, is_Some (data_config !! k)) before →
  data_config !! key = None →
  load_raw' work_dir data_config false overwrite = ([], Raise (KeyError [key])).
Proof.
  intros Hkeys Hbefore Hkey. unfold load_raw, dict_getitem. f_equal.
  destruct before as [|k1 [|k2 [|k3 [|k4 [|k5 [|k6 rest]]]]]];
    simplify_eq/=; rewrite ?Hkey;
    repeat match goal with
      | Hb : Forall _ (_ :: _) |- _ => apply Forall_cons in Hb as [[? ->] Hb]
      end;
    cbn [mbind result_bind]; rewrite ?Hkey; done.
Qed.

(** X15. In local mode, with the year an integer and the other four
    entries text, the call is [load_local_data] on the entries: the reader is
    asked for the file and the layer of that key, nothing is printed, and the
    [conn_str] entry is not looked at. *)
Theorem load_raw_local work_dir (data_config : gmap string fpart) overwrite
    (k : ArtifactKey) :
  data_config !! "data_year" = Some (FInt (year k)) →
  data_config !! "data_topic" = Some (FStr (topic k)) →
  data_config !! "geo_area" = Some (FStr (area k)) →
  data_config !! "gda_spec" = Some (FStr (datumSpec k)) →
  data_config !! "gda_type" = Some (FStr (boundaryType k)) →
  load_raw' work_dir data_config false overwrite
    = ([], match load_local_data read_file work_dir
                   (year k) (topic k) (area k) (datumSpec k) (boundaryType k) with
           | Ok gdf => Ok (RawFrame gdf)
           | Raise e => Raise e
           end)
  ∧ load_local_data read_file work_dir
      (year k) (topic k) (area k) (datumSpec k) (boundaryType k)
    = read_file (source_path_spec work_dir k) (layer_spec k).
Proof.
  intros Hy Ht Ha Hs Hty. split.
  - unfold load_raw, dict_getitem. rewrite Hy, Ht, Ha, Hs, Hty.
    cbn [mbind result_bind].
    change (load_local_data_values read_file work_dir (FInt (year k)) (FStr (topic k))
              (FStr (area k)) (FStr (datumSpec k)) (FStr (boundaryType k)))
      with (load_local_data read_file work_dir
              (year k) (topic k) (area k) (datumSpec k) (boundaryType k)).
    by destruct (load_local_data _ _ _ _ _ _ _).
  - unfold load_local_data, source_path_spec, folder_spec, file_spec, layer_spec.
    cbv zeta. cbn [fstring foldr format]. by rewrite !append_nil_r.
Qed.

(** X16. In cloud mode the call returns only after the whole container
    [australian-census-data] has been enumerated without an exception. What
    it returns is then the pager of that container, not a frame, and what it
    has printed is the header line followed by the blob names in the order
    enumerated (the header alone for an empty container). *)
Theorem load_raw_cloud_returns work_dir (data_config : gmap string fpart) overwrite
    printed v :
  load_raw' work_dir data_config true overwrite = (printed, Ok v) →
  ∃ conn_str client names,
    data_config !! "conn_str" = Some conn_str
    ∧ from_connection_string conn_str = Ok client
    ∧ let blobs := list_blobs (get_container_client client "australian-census-data") in
      blob_names blobs = (names, None)
      ∧ v = RawBlobs blobs
      ∧ printed = "Blobs in the container 'australian-census-data':" :: names.
Proof.
  unfold load_raw, dict_getitem, load_cloud_data.
  destruct (data_config !! "conn_str") as [conn_str|]; [|intros [= _ [=]]].
  destruct (from_connection_string conn_str) as [client|e] eqn:Hclient;
    [|intros [=]].
  destruct (blob_names _) as [names [e|]] eqn:Hnames; [intros [=]|].
  cbn [mbind result_bind]. intros [= <- <-].
  exists conn_str, client, names. cbv zeta. rewrite Hnames. done.
Qed.
End LoadRawFacts.

(** ** The further properties on concrete inputs *)

Module MoreCases.
#[local] Existing Instance unit_float.
Import Scenario Cases.

Lemma process_data_three_columns_witness :
  process_data rows_A population 2021 "SA4"
    = process_data rows_A_wider population 2021 "SA4".
Proof.
  apply (process_data_three_columns rows_A rows_A_wider population 2021 "SA4").
  - apply (bool_decide_unpack _). vm_compute. exact I.
  - apply (bool_decide_unpack _). vm_compute. exact I.
  - reflexivity.
  - reflexivity.
  - reflexivity.
  - reflexivity.
Defined.




Lemma process_data_boundary_names_as_value_witness :
  process_data rows_A names_as_value 2021 "SA4" = Raise (KeyError ["Location"]).
Proof.
  apply (process_data_boundary_names_as_value rows_A names_as_value 2021 "SA4").
  - apply (bool_decide_unpack _). vm_compute. exact I.
  - reflexivity.
  - reflexivity.
  - reflexivity.
  - discriminate.
  - discriminate.
Defined.



Lemma create_figure_after_process_data_witness :
  ∃ loc val geo,
    columns table_A = [ ("Location", loc); (rename population, val); ("geometry", geo) ]
    ∧ length loc = length (index table_A)
    ∧ length val = length (index table_A)
    ∧ match count_features {| index := loc;
                              columns := [ (rename population, val); ("geometry", geo) ] |} with
      | Ok mapping =>
          ∃ fig trace,
            create_figure count_features table_A population = Ok fig
            ∧ figure_data fig = [trace]
            ∧ trace_geojson trace = mapping
            ∧ trace_locations trace = loc
            ∧ trace_z trace = val
      | Raise e => create_figure count_features table_A population = Raise e
      end.
Proof.
  apply (create_figure_after_process_data count_features rows_A population 2021 "SA4" table_A).
  - apply (bool_decide_unpack _). vm_compute. exact I.
  - discriminate.
  - discriminate.
  - reflexivity.
Defined.

Lemma create_figure_returns_witness :
  is_Ok (create_figure count_features table_A population) ↔
  ∃ figure_df,
    set_index table_A "Location" = Ok figure_df
    ∧ is_Ok (count_features figure_df)
    ∧ rename population ≠ "Location"
    ∧ has_column table_A (rename population) = true.
Proof.
  apply (create_figure_returns count_features table_A population).
  apply (bool_decide_unpack _). vm_compute. exact I.
Defined.

Lemma read_figure_path_determines_parameters_witness :
  read_figure empty_store "work" 2021 "G01" "AUST" "GDA2020" "SA4"
    = Raise (FileNotFoundError "work/figure/G01_SA4_2021_AUST_GDA2020.json")
  ∧ (2021, "G01", "AUST", "GDA2020", "SA4") = (2021, "G01", "AUST", "GDA2020", "SA4").
Proof.
  apply (read_figure_path_determines_parameters (Figure := string) "work"
           2021 "G01" "AUST" "GDA2020" "SA4" 2021 "G01" "AUST" "GDA2020" "SA4").
  - reflexivity.
  - reflexivity.
  - reflexivity.
  - reflexivity.
  - reflexivity.
  - reflexivity.
  - reflexivity.
Defined.

(** Two calls, the first for an html document and the second for a json
    document of the same key: the figure read back is the second call's. *)
Lemma read_figure_after_saves_witness :
  ∃ r, r ∈ [ {| req_work_dir := "work"; req_figure := "page"; req_file_type := "html";
                req_year := 2021; req_topic := "G01"; req_area := "AUST";
                req_spec := "GDA2020"; req_type := "SA4" |};
             {| req_work_dir := "work"; req_figure := "map"; req_file_type := "json";
                req_year := 2021; req_topic := "G01"; req_area := "AUST";
                req_spec := "GDA2020"; req_type := "SA4" |} ]
       ∧ req_file_type r = "json" ∧ req_figure r = "map".
Proof.
  apply (read_figure_after_saves always_writable _ "work" 2021 "G01" "AUST" "GDA2020" "SA4").
  reflexivity.
Defined.

Lemma save_figure_name_collision_witness :
  read_figure
    (<["work/figure/G01_SA4_2021_2021_AUST_GDA2020.json" := JsonDoc "map"]> empty_store)
    "work" 2021 ("G01" +:+ "_" +:+ "SA4") "AUST" "GDA2020" "2021"
  = Ok "map".
Proof.
  apply (save_figure_name_collision always_writable empty_store "work" "map"
           2021 "G01" "SA4" "2021" "AUST" "GDA2020").
  reflexivity.
Defined.

Lemma save_figure_read_figure_witness :
  read_figure
    (<["work/figure/G01_SA4_2021_AUST_GDA2020.json" := JsonDoc "second map"]>
       (<["work/figure/G01_SA4_2021_AUST_GDA2020.json" := JsonDoc "first map"]> empty_store))
    "work" 2021 "G01" "AUST" "GDA2020" "SA4"
  = Ok "second map".
Proof.
  apply (save_figure_read_figure always_writable
           (<["work/figure/G01_SA4_2021_AUST_GDA2020.json" := JsonDoc "first map"]> empty_store)
           "work" "second map" 2021 "G01" "AUST" "GDA2020" "SA4").
  reflexivity.
Defined.

Lemma load_raw_first_missing_key_witness :
  load_raw no_file connect container_of pager_of two_blobs
    "work" config_without_area false false
  = ([], Raise (KeyError ["geo_area"])).
Proof.
  apply (load_raw_first_missing_key no_file connect container_of pager_of two_blobs
           "work" config_without_area false
           ["data_year"; "data_topic"] "geo_area" ["gda_spec"; "gda_type"]).
  - reflexivity.
  - repeat constructor; vm_compute; eauto.
  - vm_compute. reflexivity.
Defined.

Lemma load_raw_local_witness :
  load_raw no_file connect container_of pager_of two_blobs "work" local_config false false
    = ([], match load_local_data no_file "work"
                   (year key_C) (topic key_C) (area key_C) (datumSpec key_C)
                   (boundaryType key_C) with
           | Ok gdf => Ok (RawFrame gdf)
           | Raise e => Raise e
           end)
  ∧ load_local_data no_file "work"
      (year key_C) (topic key_C) (area key_C) (datumSpec key_C) (boundaryType key_C)
    = no_file (source_path_spec "work" key_C) (layer_spec key_C).
Proof.
  apply (load_raw_local no_file connect container_of pager_of two_blobs
           "work" local_config false key_C); vm_compute; reflexivity.
Defined.

Lemma load_raw_cloud_returns_witness :
  ∃ conn_str client names,
    cloud_config !! "conn_str" = Some conn_str
    ∧ connect conn_str = Ok client
    ∧ let blobs := pager_of (container_of client "australian-census-data") in
      two_blobs blobs = (names, None)
      ∧ RawBlobs (Pager := string) "australian-census-data" = RawBlobs blobs
      ∧ [ "Blobs in the container 'australian-census-data':";
          "G01_AUST_GDA2020.gpkg"; "G02_AUST_GDA2020.gpkg" ]
        = "Blobs in the container 'australian-census-data':" :: names.
Proof.
  apply (load_raw_cloud_returns no_file connect container_of pager_of two_blobs
           "work" cloud_config false).
  vm_compute. reflexivity.
Defined.
End MoreCases.
